(** * gen_fp.py: SMILES file to HDF5 fingerprint dataset

    A shallow embedding of [SELECTED/gen_fp.py] and the properties of its
    pipeline: line reading, tokenising, fingerprint accumulation, array
    materialisation and the HDF5 writer.

    Python text is a sequence of Unicode code points, bytes are
    [Byte.byte]; the file system is a finite map from paths to files; the
    functions of the script run in a small state-and-exception monad over
    a [World]. The chemistry toolkit (RDKit) is a parameter of the
    development. *)

From Stdlib Require Import NArith ZArith QArith Lia.
From Stdlib.Strings Require Import Ascii String Byte.
From stdpp Require Import base option list gmap.

Local Open Scope N_scope.

(** A Python [str]: its code points, in order. *)
Abbreviation pystr := (list N).
(** A Python [bytes] object. *)
Abbreviation pybytes := (list byte).

(** * Python built-ins used by the script *)
Module Py.

(** The code points of an ASCII literal. *)
Definition lit (s : string) : pystr :=
  map N_of_ascii (list_ascii_of_string s).

(** [str.isspace] for one code point: the white space table of CPython
    ([_PyUnicode_IsWhitespace]). *)
Definition isspace (c : N) : bool :=
  ((9 <=? c) && (c <=? 13)) || ((28 <=? c) && (c <=? 32))
  || (c =? 133) || (c =? 160) || (c =? 5760)
  || ((8192 <=? c) && (c <=? 8202))
  || (c =? 8232) || (c =? 8233) || (c =? 8239) || (c =? 8287)
  || (c =? 12288).

(** [s.lstrip()] *)
Fixpoint lstrip (s : pystr) : pystr :=
  match s with
  | [] => []
  | c :: s' => if isspace c then lstrip s' else s
  end.

(** [s.rstrip()] *)
Definition rstrip (s : pystr) : pystr := rev (lstrip (rev s)).

(** [s.strip()]: white space removed at both ends. *)
Definition strip (s : pystr) : pystr := rstrip (lstrip s).

(** [s.split(sep)] for a separator of one character: a cut at every
    occurrence; the empty string gives one empty token. *)
Fixpoint split (s : pystr) (sep : N) : list pystr :=
  match s with
  | [] => [[]]
  | c :: s' =>
      if c =? sep then [] :: split s' sep
      else match split s' sep with
           | t :: ts => (c :: t) :: ts
           | [] => [[c]]
           end
  end.

(** [sep.join(l)] *)
Fixpoint join (sep : pystr) (l : list pystr) : pystr :=
  match l with
  | [] => []
  | t :: rest =>
      match rest with
      | [] => t
      | _ => t ++ sep ++ join sep rest
      end
  end.

(** [s.encode("ascii", "ignore")]: a code point below 128 becomes its
    byte, any other one is handed to the [ignore] handler, which emits
    nothing. *)
Fixpoint encode_ascii_ignore (s : pystr) : pybytes :=
  match s with
  | [] => []
  | c :: s' =>
      match (if c <? 128 then Byte.of_N c else None) with
      | Some b => b :: encode_ascii_ignore s'
      | None => encode_ascii_ignore s'
      end
  end.

(** The lines a text file object yields when iterated: each ends with
    its line feed (code point 10), but for a last line without one; the
    empty text yields no line. [cur] is the line being read, reversed. *)
Fixpoint lines_from (cur : pystr) (s : pystr) : list pystr :=
  match s with
  | [] => match cur with [] => [] | _ => [rev cur] end
  | c :: s' =>
      if c =? 10 then rev (c :: cur) :: lines_from [] s'
      else lines_from (c :: cur) s'
  end.

Definition readlines (s : pystr) : list pystr := lines_from [] s.

(** [itertools.islice(it, start, None)] *)
Definition islice {A} (it : list A) (start : nat) : list A := drop start it.

(** [tqdm(it)]: the same items; the progress bar goes to standard error,
    which the model leaves out. *)
Definition tqdm {A} (it : list A) : list A := it.

End Py.

(** * numpy arrays *)
Module Np.

Inductive dtype := float64 | float32.

(** An [ndarray]: element type, shape and the elements in row-major
    order. The arrays of this script hold only the floats 0.0 and 1.0,
    written here as the integers 0 and 1; both are exact in either
    element type, so a change of [dtype] leaves the elements as they
    are. *)
Record ndarray := mk_ndarray {
  nd_dtype : dtype;
  nd_shape : list nat;
  nd_data : list Z
}.

#[export] Instance dtype_eq_dec : EqDecision dtype.
Proof. solve_decision. Defined.

(** The number of elements of a shape. *)
Definition product (shape : list nat) : nat := foldr Nat.mul 1%nat shape.

(** [np.zeros(shape)], of the default element type. *)
Definition zeros (shape : list nat) : ndarray :=
  mk_ndarray float64 shape (replicate (product shape) 0%Z).

(** [np.array(lst, dtype=dt)] on a list of arrays: the empty list gives
    the one-dimensional empty array of shape (0,); arrays of one common
    shape are stacked along a new first axis; arrays of different shapes
    are refused ([None], a ValueError). *)
Definition array (lst : list ndarray) (dt : dtype) : option ndarray :=
  match lst with
  | [] => Some (mk_ndarray dt [0%nat] [])
  | a :: rest =>
      if forallb (fun b => bool_decide (nd_shape b = nd_shape a)) rest
      then Some (mk_ndarray dt (length lst :: nd_shape a)
                            (concat (map nd_data lst)))
      else None
  end.

(** An array is dense: it holds as many elements as its shape says. *)
Definition dense (a : ndarray) : Prop :=
  length (nd_data a) = product (nd_shape a).

End Np.

(** * The chemistry toolkit's bit vectors *)
Module DataStructs.

(** An [ExplicitBitVect]. *)
Definition BitVect := list bool.

(** [DataStructs.ConvertToNumpyArray(fp, arr)]: [arr] is resized in
    place to the length of [fp] and receives one element per bit. *)
Definition ConvertToNumpyArray (fp : BitVect) (arr : Np.ndarray)
  : Np.ndarray :=
  Np.mk_ndarray (Np.nd_dtype arr) [length fp] (map Z.b2z fp).

End DataStructs.

(** * Files, handles and the world the script runs in *)

(** The payload of an HDF5 dataset. *)
Inductive h5data :=
  | H5Floats (dt : Np.dtype) (vals : list Z)
  | H5VlenBytes (vals : list pybytes).

Record dataset := mk_dataset {
  ds_shape : list nat;
  ds_data : h5data
}.

(** The number of elements a dataset holds, and the datasets that hold
    as many as their shape says. *)
Definition h5_length (d : h5data) : nat :=
  match d with
  | H5Floats _ vals => length vals
  | H5VlenBytes vals => length vals
  end.
Definition dataset_dense (d : dataset) : Prop :=
  h5_length (ds_data d) = Np.product (ds_shape d).

(** A file is a text (the code points it decodes to, line ends already
    translated to line feeds) or an HDF5 container: its named datasets in
    the order of their creation. *)
Inductive file :=
  | text_file (s : pystr)
  | hdf5_file (c : list (pystr * dataset)).

Inductive handle :=
  | TextHandle (path : pystr)
  | H5Handle (path : pystr).

#[export] Instance handle_eq_dec : EqDecision handle.
Proof. solve_decision. Defined.

Inductive exn :=
  | FileNotFoundError
  | UnicodeDecodeError
  | ValueError
  | OSError
  | IndexError
  | SystemExit (code : Z).

(** The state a run acts on. [w_open] holds the handles that were opened
    and not closed by a call of [close]: what the garbage collector or
    the end of the process reclaims is outside the model. [w_clock] is
    the sequence of readings [time()] returns, [w_ticks] the number of
    readings taken. [w_nocreate] tells the paths at which no file can be
    created (missing directory, no permission), [w_writefail] the
    datasets whose write fails (full disk, refused data). *)
Record World := mk_World {
  w_fs : gmap pystr file;
  w_open : list handle;
  w_stdout : pystr;
  w_clock : nat -> Q;
  w_ticks : nat;
  w_nocreate : pystr -> bool;
  w_writefail : pystr -> pystr -> bool
}.

Definition set_fs (f : gmap pystr file -> gmap pystr file) (w : World) :=
  mk_World (f (w_fs w)) (w_open w) (w_stdout w) (w_clock w) (w_ticks w)
           (w_nocreate w) (w_writefail w).
Definition set_open (f : list handle -> list handle) (w : World) :=
  mk_World (w_fs w) (f (w_open w)) (w_stdout w) (w_clock w) (w_ticks w)
           (w_nocreate w) (w_writefail w).
Definition set_stdout (f : pystr -> pystr) (w : World) :=
  mk_World (w_fs w) (w_open w) (f (w_stdout w)) (w_clock w) (w_ticks w)
           (w_nocreate w) (w_writefail w).
Definition set_ticks (f : nat -> nat) (w : World) :=
  mk_World (w_fs w) (w_open w) (w_stdout w) (w_clock w) (f (w_ticks w))
           (w_nocreate w) (w_writefail w).

(** What stays of a world when only the clock, the output stream and the
    open handles move. *)
Definition same_disk (w w' : World) : Prop :=
  w_fs w' = w_fs w /\ w_nocreate w' = w_nocreate w
  /\ w_writefail w' = w_writefail w.

(** What stays of a world when only the file system and the open handles
    move: the output stream, the clock and the faults of the disk. *)
Definition same_rest (w w' : World) : Prop :=
  w_stdout w' = w_stdout w /\ w_ticks w' = w_ticks w
  /\ w_clock w' = w_clock w /\ w_nocreate w' = w_nocreate w
  /\ w_writefail w' = w_writefail w.

(** ** The monad of the script: state and exceptions *)

Inductive outcome (A : Type) :=
  | Ret (a : A)
  | Raise (e : exn).
Arguments Ret {A} a.
Arguments Raise {A} e.

Definition IO (A : Type) : Type := World -> World * outcome A.

Definition ret {A} (a : A) : IO A := fun w => (w, Ret a).
Definition raise {A} (e : exn) : IO A := fun w => (w, Raise e).
Definition bind {A B} (c : IO A) (k : A -> IO B) : IO B :=
  fun w => match c w with
           | (w', Ret a) => k a w'
           | (w', Raise e) => (w', Raise e)
           end.
(** A computation that raises or returns and leaves the world alone. *)
Definition lift {A} (r : outcome A) : IO A := fun w => (w, r).

Notation "x <- c ;; k" := (bind c (fun x => k))
  (at level 100, c at next level, right associativity).
Notation "c ;;; k" := (bind c (fun _ => k))
  (at level 100, right associativity).

(** The same for computations that do not touch the world. *)
Definition obind {A B} (r : outcome A) (k : A -> outcome B) : outcome B :=
  match r with
  | Ret a => k a
  | Raise e => Raise e
  end.

(** The exit status of the process for the outcome of the script. *)
Definition exit_status {A} (r : outcome A) : Z :=
  match r with
  | Ret _ => 0
  | Raise (SystemExit code) => code
  | Raise _ => 1
  end.

(** ** Built-in input and output *)

(** [print(s)] *)
Definition print (s : pystr) : IO unit :=
  fun w => (set_stdout (fun out => out ++ s ++ [10]) w, Ret tt).

(** [time()] *)
Definition time : IO Q :=
  fun w => (set_ticks S w, Ret (w_clock w (w_ticks w))).

(** [sys.exit(code)] *)
Definition sys_exit {A} (code : Z) : IO A := raise (SystemExit code).

(** [open(name)]: for reading, as text. *)
Definition open (name : pystr) : IO handle :=
  fun w => match w_fs w !! name with
           | Some _ => (set_open (cons (TextHandle name)) w,
                        Ret (TextHandle name))
           | None => (w, Raise FileNotFoundError)
           end.

(** Iterating over a text file object: its lines. A container is no
    text: its signature does not decode (in UTF-8, the default), and the
    first read raises. *)
Definition iter_lines (ifs : handle) : IO (list pystr) :=
  fun w => match ifs with
           | TextHandle name =>
               match w_fs w !! name with
               | Some (text_file s) => (w, Ret (Py.readlines s))
               | Some (hdf5_file _) => (w, Raise UnicodeDecodeError)
               | None => (w, Raise OSError)
               end
           | H5Handle _ => (w, Raise ValueError)
           end.

(** * h5py *)
Module H5py.

(** What [create_dataset] is given as [data]. *)
Inductive pydata :=
  | DArray (a : Np.ndarray)
  | DList (l : list pybytes).

(** [data] as the array that is stored: its shape and its payload. *)
Definition as_array (data : pydata) : list nat * h5data :=
  match data with
  | DArray a => (Np.nd_shape a, H5Floats (Np.nd_dtype a) (Np.nd_data a))
  | DList l => ([length l], H5VlenBytes l)
  end.

(** [h5py.File(name, 'w')]: the file is created, or truncated when it
    exists. *)
Definition File (name : pystr) : IO handle :=
  fun w => if w_nocreate w name then (w, Raise OSError)
           else (set_open (cons (H5Handle name))
                   (set_fs <[name := hdf5_file []]> w),
                 Ret (H5Handle name)).

(** [h5f.create_dataset(name, shape, dtype, data)]: a given [shape] must
    hold as many elements as [data]; the name must be new. *)
Definition create_dataset (h5f : handle) (name : pystr)
    (shape : option (list nat)) (data : pydata) : IO unit :=
  fun w =>
    match h5f with
    | H5Handle path =>
        if negb (bool_decide (h5f ∈ w_open w)) then (w, Raise ValueError)
        else
          let (dshape, payload) := as_array data in
          let shape' := default dshape shape in
          if negb (Np.product shape' =? Np.product dshape)%nat
          then (w, Raise ValueError)
          else match w_fs w !! path with
               | Some (hdf5_file c) =>
                   if bool_decide (name ∈ c.*1) then (w, Raise ValueError)
                   else if w_writefail w path name then (w, Raise OSError)
                   else (set_fs <[path :=
                           hdf5_file (c ++ [(name, mk_dataset shape' payload)])]> w,
                         Ret tt)
               | _ => (w, Raise OSError)
               end
    | TextHandle _ => (w, Raise ValueError)
    end.

(** The handles without the first occurrence of [h]. *)
Fixpoint remove1 (h : handle) (l : list handle) : list handle :=
  match l with
  | [] => []
  | h' :: l' => if bool_decide (h' = h) then l' else h' :: remove1 h l'
  end.

(** [h5f.close()] *)
Definition close (h5f : handle) : IO unit :=
  fun w => (set_open (remove1 h5f) w, Ret tt).

End H5py.

(** * The script *)
Module GenFp.
Section Script.

(** The chemistry toolkit: the type of parsed molecules,
    [Chem.MolFromSmiles] ([None] is Python's [None]: the structure is
    refused) and [rdmd.GetMorganFingerprintAsBitVect mol radius nBits].
    Either call may raise. *)
Variable Mol : Type.
Variable MolFromSmiles : pystr -> outcome (option Mol).
Variable GetMorganFingerprintAsBitVect :
  Mol -> nat -> nat -> outcome DataStructs.BitVect.

(** The text of [f"{end - start:.2f}"] for two clock readings. *)
Variable elapsed_text : Q -> Q -> pystr.

(** The decorator [timing]: [f_name] is [f.__name__]. When [f] raises,
    nothing is printed. *)
Definition timing {A} (f_name : pystr) (f : IO A) : IO A :=
  start <- time ;;
  result <- f ;;
  end_ <- time ;;
  print (f_name ++ [32] ++ Py.lit "Elapsed time: "
           ++ elapsed_text start end_ ++ Py.lit " sec") ;;;
  ret result.

(** The line the decorator prints for a call named [f_name] that began
    at the reading [start] and ended at [end_], with its line feed. *)
Definition timing_line (f_name : pystr) (start end_ : Q) : pystr :=
  f_name ++ [32] ++ Py.lit "Elapsed time: "
  ++ elapsed_text start end_ ++ Py.lit " sec" ++ [10].

Definition make_np_array (lst : list Np.ndarray) : IO Np.ndarray :=
  timing (Py.lit "make_np_array")
    (lift (match Np.array lst Np.float32 with
           | Some a => Ret a
           | None => Raise ValueError
           end)).

(** The writer. [dt], the variable-length bytes type, is the element
    type of the two string columns ([H5VlenBytes]). *)
Definition save_data (fp_array : Np.ndarray)
    (smiles_list name_list : list pybytes) (outfile_name : pystr)
  : IO unit :=
  timing (Py.lit "save_data")
    (h5f <- H5py.File outfile_name ;;
     H5py.create_dataset h5f (Py.lit "fp_list") None
       (H5py.DArray fp_array) ;;;
     H5py.create_dataset h5f (Py.lit "smiles_list")
       (Some [length smiles_list; 1%nat]) (H5py.DList smiles_list) ;;;
     H5py.create_dataset h5f (Py.lit "name_list")
       (Some [length name_list; 1%nat]) (H5py.DList name_list) ;;;
     H5py.close h5f).

(** The three accumulators: [fp_list], [smiles_list], [name_list]. *)
Definition columns : Type :=
  list Np.ndarray * list pybytes * list pybytes.

(** The tokens of a line: [line.strip().split(" ")]. *)
Definition toks_of (line : pystr) : list pystr :=
  Py.split (Py.strip line) 32.

(** The body of the loop of [generate_fingerprints]. A molecule object
    is true, [None] is false. *)
Definition loop_body (acc : columns) (line : pystr) : outcome columns :=
  let '(fp_list, smiles_list, name_list) := acc in
  let toks := toks_of line in
  if (2 <=? length toks)%nat then
    let smiles := default [] (toks !! 0%nat) in
    let name := default [] (toks !! 1%nat) in
    obind (MolFromSmiles smiles) (fun mol =>
      match mol with
      | Some m =>
          obind (GetMorganFingerprintAsBitVect m 3 1024) (fun fp =>
            let arr := Np.zeros [1%nat] in
            let arr := DataStructs.ConvertToNumpyArray fp arr in
            Ret (fp_list ++ [arr],
                 smiles_list ++ [Py.encode_ascii_ignore smiles],
                 name_list ++ [Py.encode_ascii_ignore name]))
      | None => Ret acc
      end)
  else Ret acc.

Fixpoint for_lines (lines : list pystr) (acc : columns)
  : outcome columns :=
  match lines with
  | [] => Ret acc
  | line :: rest => obind (loop_body acc line) (for_lines rest)
  end.

Definition generate_fingerprints (infile_name : pystr) : IO columns :=
  timing (Py.lit "generate_fingerprints")
    (ifs <- open infile_name ;;
     lines <- iter_lines ifs ;;
     lift (for_lines (Py.tqdm (Py.islice lines 1)) ([], [], []))).

Definition main (input_smiles_file output_fp_file : pystr) : IO unit :=
  timing (Py.lit "main")
    (cols <- generate_fingerprints input_smiles_file ;;
     let '(fp_list, smiles_list, name_list) := cols in
     let outfile_name := output_fp_file in
     fp_array <- make_np_array fp_list ;;
     save_data fp_array smiles_list name_list outfile_name).

(** What the loop does with a structure and an identifier (lines 77 to
    84), as a function of its own: used to state what [loop_body] does
    with the tokens of a line. *)
Definition take_record (acc : columns) (smiles name : pystr)
  : outcome columns :=
  let '(fp_list, smiles_list, name_list) := acc in
  match MolFromSmiles smiles with
  | Ret (Some m) =>
      match GetMorganFingerprintAsBitVect m 3 1024 with
      | Ret fp =>
          Ret (fp_list ++ [DataStructs.ConvertToNumpyArray fp
                             (Np.zeros [1%nat])],
               smiles_list ++ [Py.encode_ascii_ignore smiles],
               name_list ++ [Py.encode_ascii_ignore name])
      | Raise e => Raise e
      end
  | Ret None => Ret acc
  | Raise e => Raise e
  end.

(** The specification's reading of a line, to compare with [toks_of]:
    its white-space-separated tokens, the maximal runs of characters
    that are not white space. [cur] is the token being read, reversed. *)
Fixpoint whitespace_tokens_from (cur : pystr) (s : pystr) : list pystr :=
  match s with
  | [] => match cur with [] => [] | _ => [rev cur] end
  | c :: s' =>
      if Py.isspace c then
        match cur with
        | [] => whitespace_tokens_from [] s'
        | _ => rev cur :: whitespace_tokens_from [] s'
        end
      else whitespace_tokens_from (c :: cur) s'
  end.

Definition whitespace_tokens (line : pystr) : list pystr :=
  whitespace_tokens_from [] line.

(** The loop body of the specification's words: a line of two
    white-space-separated tokens or more gives a record of the first
    two. *)
Definition spec_loop_body (acc : columns) (line : pystr)
  : outcome columns :=
  match whitespace_tokens line with
  | smiles :: name :: _ => take_record acc smiles name
  | _ => Ret acc
  end.

(** A line gives a row: it has two tokens or more and the parser accepts
    the first. *)
Definition accepted (line : pystr) : bool :=
  match toks_of line with
  | smiles :: _ :: _ =>
      match MolFromSmiles smiles with
      | Ret (Some _) => true
      | _ => false
      end
  | _ => false
  end.

(** The toolkit raises on no call the loop makes for this line. *)
Definition toolkit_returns (line : pystr) : Prop :=
  match toks_of line with
  | smiles :: _ :: _ =>
      match MolFromSmiles smiles with
      | Ret (Some m) =>
          exists fp, GetMorganFingerprintAsBitVect m 3 1024 = Ret fp
      | Ret None => True
      | Raise _ => False
      end
  | _ => True
  end.

(** The fingerprint of the record of an accepted line, radius 3 and
    1024 bits, and the three entries the line gives. *)
Definition fp_of (line : pystr) : DataStructs.BitVect :=
  match MolFromSmiles (default [] (toks_of line !! 0%nat)) with
  | Ret (Some m) =>
      match GetMorganFingerprintAsBitVect m 3 1024 with
      | Ret fp => fp
      | Raise _ => []
      end
  | _ => []
  end.
Definition row_fp (line : pystr) : Np.ndarray :=
  DataStructs.ConvertToNumpyArray (fp_of line) (Np.zeros [1%nat]).
Definition row_smiles (line : pystr) : pybytes :=
  Py.encode_ascii_ignore (default [] (toks_of line !! 0%nat)).
Definition row_name (line : pystr) : pybytes :=
  Py.encode_ascii_ignore (default [] (toks_of line !! 1%nat)).

(** The outcome of the reading pass as a function of what the file
    system holds at the input path. *)
Definition read_result (entry : option file) : outcome columns :=
  match entry with
  | None => Raise FileNotFoundError
  | Some (hdf5_file _) => Raise UnicodeDecodeError
  | Some (text_file s) => for_lines (drop 1 (Py.readlines s)) ([], [], [])
  end.

(** The three datasets of a complete output file. *)
Definition fp_dataset (fp_array : Np.ndarray) : pystr * dataset :=
  (Py.lit "fp_list",
   mk_dataset (Np.nd_shape fp_array)
     (H5Floats (Np.nd_dtype fp_array) (Np.nd_data fp_array))).
Definition smiles_dataset (smiles_list : list pybytes) : pystr * dataset :=
  (Py.lit "smiles_list",
   mk_dataset [length smiles_list; 1%nat] (H5VlenBytes smiles_list)).
Definition name_dataset (name_list : list pybytes) : pystr * dataset :=
  (Py.lit "name_list",
   mk_dataset [length name_list; 1%nat] (H5VlenBytes name_list)).

(** The outcome of the writer, what it leaves at the output path ([None]:
    the path is not touched) and whether its handle is left open, as a
    function of the faults of the disk: [nocreate] for the path, [fails]
    for each dataset name. *)
Definition write_result (nocreate : bool) (fails : pystr -> bool)
    (fp_array : Np.ndarray) (smiles_list name_list : list pybytes)
  : outcome unit * option (list (pystr * dataset)) * bool :=
  if nocreate then (Raise OSError, None, false)
  else if fails (Py.lit "fp_list") then (Raise OSError, Some [], true)
  else if fails (Py.lit "smiles_list") then
    (Raise OSError, Some [fp_dataset fp_array], true)
  else if fails (Py.lit "name_list") then
    (Raise OSError,
     Some [fp_dataset fp_array; smiles_dataset smiles_list], true)
  else
    (Ret tt,
     Some [fp_dataset fp_array; smiles_dataset smiles_list;
           name_dataset name_list], false).

(** [sys.argv[i]] *)
Definition argv_at (argv : list pystr) (i : nat) : IO pystr :=
  lift (match argv !! i with
        | Some a => Ret a
        | None => Raise IndexError
        end).

(** The block under [if __name__ == "__main__"]. *)
Definition script (argv : list pystr) : IO unit :=
  (if negb (length argv =? 3)%nat then
     prog <- argv_at argv 0 ;;
     print (Py.lit "usage: " ++ prog ++ Py.lit " infile.smi outfile.h5") ;;;
     sys_exit 1%Z
   else ret tt) ;;;
  a1 <- argv_at argv 1 ;;
  a2 <- argv_at argv 2 ;;
  main a1 a2.

End Script.
End GenFp.

(** * A small toolkit to run the script on concrete files

    Structures are strings over the letters C, N and O; bit [i] of the
    fingerprint of a structure tells whether its length divides [i + 1]. *)
Module Toy.

Definition parse (s : pystr) : outcome (option pystr) :=
  Ret (if forallb (fun c => (c =? 67) || (c =? 78) || (c =? 79)) s
       then Some s else None).

Definition fingerprint (m : pystr) (radius nBits : nat)
  : outcome DataStructs.BitVect :=
  Ret (map (fun i => (S i mod S (length m) =? 0)%nat) (seq 0 nBits)).

Definition elapsed (start end_ : Q) : pystr := Py.lit "0.00".

Definition world (fs : gmap pystr file) : World :=
  mk_World fs [] [] (fun _ => 0%Q) 0 (fun _ => false) (fun _ _ => false).

Definition script := GenFp.script pystr parse fingerprint elapsed.
Definition main := GenFp.main pystr parse fingerprint elapsed.
Definition generate_fingerprints :=
  GenFp.generate_fingerprints pystr parse fingerprint elapsed.
Definition save_data := GenFp.save_data elapsed.
Definition loop_body := GenFp.loop_body pystr parse fingerprint.
Definition spec_loop_body := GenFp.spec_loop_body pystr parse fingerprint.

Definition timing_line := GenFp.timing_line elapsed.
Definition for_lines := GenFp.for_lines pystr parse fingerprint.
Definition toolkit_returns := GenFp.toolkit_returns pystr parse fingerprint.

Definition infile : pystr := Py.lit "in.smi".
Definition outfile : pystr := Py.lit "out.h5".

(** The file of the scenario: a header, two good records and one whose
    structure is refused. *)
Definition scenario : pystr :=
  Py.lit "header" ++ [10] ++ Py.lit "CCO ethanol" ++ [10]
  ++ Py.lit "notasmiles bad" ++ [10] ++ Py.lit "CC methane" ++ [10].

(** A world whose only file is the scenario, and one with the same file
    next to another, a later clock and text already printed. *)
Definition scenario_world : World :=
  world {[ infile := text_file scenario ]}.
Definition busy_world : World :=
  mk_World {[ infile := text_file scenario;
              Py.lit "notes.txt" := text_file (Py.lit "x") ]}
           [TextHandle (Py.lit "notes.txt")] (Py.lit "earlier output")
           (fun n => (Z.of_nat n # 3)%Q) 7 (fun _ => false)
           (fun _ _ => false).

(** A file of a header line and nothing else. *)
Definition header_only_world : World :=
  world {[ infile := text_file (Py.lit "header" ++ [10]) ]}.

(** A disk on which the write of the second dataset fails. *)
Definition full_disk_world : World :=
  mk_World ∅ [] [] (fun _ => 0%Q) 0 (fun _ => false)
           (fun _ name => bool_decide (name = Py.lit "smiles_list")).

(** Lines: fields with a tab between them, with two spaces between them,
    and with a character outside ASCII (code point 233) in the name. *)
Definition tab_line : pystr :=
  Py.lit "CCO" ++ [9] ++ Py.lit "ethanol" ++ [10].
Definition two_space_line : pystr := Py.lit "CCO  ethanol" ++ [10].
Definition accent_line : pystr := Py.lit "CCO caf" ++ [233; 10].

(** The bits of the fingerprint of CCO. *)
Definition cco_bits : DataStructs.BitVect :=
  match fingerprint (Py.lit "CCO") 3 1024 with
  | Ret fp => fp
  | Raise _ => []
  end.

End Toy.

(** * Properties *)

(** ** The built-ins on small inputs *)

Example split_two_spaces :
  Py.split (Py.strip (Py.lit "CCO  ethanol" ++ [10])) 32
  = [Py.lit "CCO"; []; Py.lit "ethanol"].
Proof. reflexivity. Qed.

Example split_tab :
  Py.split (Py.strip (Py.lit "CCO" ++ [9] ++ Py.lit "ethanol" ++ [10])) 32
  = [Py.lit "CCO" ++ [9] ++ Py.lit "ethanol"].
Proof. reflexivity. Qed.

Example readlines_ex :
  Py.readlines (Py.lit "h" ++ [10] ++ Py.lit "a b" ++ [10] ++ Py.lit "c")
  = [Py.lit "h" ++ [10]; Py.lit "a b" ++ [10]; Py.lit "c"].
Proof. reflexivity. Qed.

(** ** Python strings *)
Module PyFacts.

Lemma split_nonempty (s : pystr) (sep : N) : Py.split s sep <> [].
Proof.
  destruct s as [|c s]; simpl; [done|].
  destruct (c =? sep); [done|]. destruct (Py.split s sep); done.
Qed.

(** A prefix without the separator is the first token. *)
Lemma split_app (a r : pystr) (sep : N) :
  sep ∉ a -> Py.split (a ++ sep :: r) sep = a :: Py.split r sep.
Proof.
  induction a as [|c a IH]; intros Ha; simpl.
  - rewrite N.eqb_refl. reflexivity.
  - apply not_elem_of_cons in Ha as [Hc Ha].
    destruct (N.eqb_spec c sep) as [->|_]; [done|].
    rewrite (IH Ha). reflexivity.
Qed.

(** A string without the separator is one token. *)
Lemma split_none (a : pystr) (sep : N) :
  sep ∉ a -> Py.split a sep = [a].
Proof.
  induction a as [|c a IH]; intros Ha; simpl; [done|].
  apply not_elem_of_cons in Ha as [Hc Ha].
  destruct (N.eqb_spec c sep) as [->|_]; [done|].
  rewrite (IH Ha). reflexivity.
Qed.

(** The tokens are the pieces between the separators: joined with the
    separator they give the string back, and none holds a separator. *)
Lemma split_join (s : pystr) (sep : N) :
  Py.join [sep] (Py.split s sep) = s.
Proof.
  induction s as [|c s IH]; simpl; [done|].
  pose proof (split_nonempty s sep) as Hne.
  destruct (N.eqb_spec c sep) as [->|Hc].
  - destruct (Py.split s sep) as [|t ts]; [done|].
    simpl in *. rewrite IH. reflexivity.
  - destruct (Py.split s sep) as [|t ts]; [done|].
    simpl in *. destruct ts; simpl in *; rewrite <- IH; reflexivity.
Qed.

Lemma split_no_sep (s : pystr) (sep : N) :
  Forall (fun t => sep ∉ t) (Py.split s sep).
Proof.
  induction s as [|c s IH]; simpl.
  - repeat constructor. apply not_elem_of_nil.
  - destruct (N.eqb_spec c sep) as [->|Hc].
    + constructor; [apply not_elem_of_nil|done].
    + destruct (Py.split s sep) as [|t ts]; inversion IH; subst.
      * repeat constructor. intros ?%list_elem_of_singleton. done.
      * constructor; [|done].
        intros [?|?]%elem_of_cons; [congruence|done].
Qed.

Lemma encode_ascii_ignore_spec (s : pystr) :
  map Byte.to_N (Py.encode_ascii_ignore s) = filter (fun c => c < 128) s.
Proof.
  induction s as [|c s IH]; simpl; [done|].
  rewrite filter_cons. destruct (N.ltb_spec c 128) as [Hlt|Hge].
  - destruct (Byte.of_N c) as [b|] eqn:Hb.
    + rewrite decide_True by done. simpl. rewrite IH.
      f_equal. apply Byte.to_of_N in Hb. done.
    + exfalso. pose proof (Byte.of_N_None_iff c) as [Hn _].
      specialize (Hn Hb). lia.
  - rewrite decide_False by lia. apply IH.
Qed.

Lemma filter_ascii_id (s : pystr) :
  (forall c, c ∈ s -> c < 128) -> filter (fun c => c < 128) s = s.
Proof.
  induction s as [|c s IH]; intros Hall; [done|].
  rewrite filter_cons_True by (apply Hall; left).
  f_equal. apply IH. intros c' Hc'. apply Hall. by right.
Qed.

Lemma lines_from_first (h cur body : pystr) :
  10 ∉ h ->
  Py.lines_from cur (h ++ 10 :: body)
  = (rev cur ++ h ++ [10]) :: Py.lines_from [] body.
Proof.
  revert cur. induction h as [|c h IH]; intros cur Hh; simpl.
  - reflexivity.
  - apply not_elem_of_cons in Hh as [Hc Hh].
    destruct (N.eqb_spec c 10) as [->|_]; [done|].
    rewrite (IH _ Hh). simpl. rewrite <- app_assoc. reflexivity.
Qed.

(** What [lstrip] removes is white space, and what it leaves does not
    start with white space. *)
Lemma lstrip_spec (s : pystr) :
  exists pre, s = pre ++ Py.lstrip s
    /\ Forall (fun c => Py.isspace c = true) pre
    /\ (forall c, head (Py.lstrip s) = Some c -> Py.isspace c = false).
Proof.
  induction s as [|c s (pre & Hs & Hpre & Hhd)]; simpl.
  - exists []. repeat split; [constructor|done].
  - destruct (Py.isspace c) eqn:Hc.
    + exists (c :: pre). repeat split;
        [simpl; f_equal; exact Hs|by constructor|done].
    + exists []. repeat split; [constructor|]. intros c' [= <-]. done.
Qed.

(** [strip] cuts white space, and nothing else, from both ends. *)
Lemma strip_spec (s : pystr) :
  exists pre post, s = pre ++ Py.strip s ++ post
    /\ Forall (fun c => Py.isspace c = true) pre
    /\ Forall (fun c => Py.isspace c = true) post
    /\ (forall c, head (Py.strip s) = Some c -> Py.isspace c = false)
    /\ (forall c, last (Py.strip s) = Some c -> Py.isspace c = false).
Proof.
  unfold Py.strip, Py.rstrip.
  destruct (lstrip_spec s) as (pre & Hs & Hpre & Hhd).
  destruct (lstrip_spec (rev (Py.lstrip s))) as (q & Hr & Hq & Hlast).
  set (m := Py.lstrip (rev (Py.lstrip s))) in *.
  assert (Hl : Py.lstrip s = rev m ++ rev q).
  { rewrite <- rev_app_distr, <- Hr, rev_involutive. done. }
  exists pre, (rev q). repeat split.
  - rewrite <- Hl. done.
  - done.
  - apply Forall_forall. intros c Hc%list_elem_of_In%in_rev.
    rewrite Forall_forall in Hq. apply Hq. by apply list_elem_of_In.
  - intros c Hc. apply Hhd. rewrite Hl.
    destruct (rev m); simplify_eq/=. done.
  - intros c Hc. apply Hlast.
    rewrite <- (rev_involutive m). destruct (rev m) using rev_ind.
    + done.
    + rewrite last_snoc in Hc. rewrite rev_app_distr. simpl. done.
Qed.

End PyFacts.

(** ** The functions of the script *)
Import GenFp.

Section Properties.

Variable Mol : Type.
Variable MolFromSmiles : pystr -> outcome (option Mol).
Variable GetMorganFingerprintAsBitVect :
  Mol -> nat -> nat -> outcome DataStructs.BitVect.
Variable elapsed_text : Q -> Q -> pystr.

Local Abbreviation timing := (@GenFp.timing elapsed_text).
Local Abbreviation make_np_array := (GenFp.make_np_array elapsed_text).
Local Abbreviation save_data := (GenFp.save_data elapsed_text).
Local Abbreviation loop_body :=
  (GenFp.loop_body Mol MolFromSmiles GetMorganFingerprintAsBitVect).
Local Abbreviation take_record :=
  (GenFp.take_record Mol MolFromSmiles GetMorganFingerprintAsBitVect).
Local Abbreviation spec_loop_body :=
  (GenFp.spec_loop_body Mol MolFromSmiles GetMorganFingerprintAsBitVect).
Local Abbreviation accepted := (GenFp.accepted Mol MolFromSmiles).
Local Abbreviation toolkit_returns :=
  (GenFp.toolkit_returns Mol MolFromSmiles GetMorganFingerprintAsBitVect).
Local Abbreviation fp_of :=
  (GenFp.fp_of Mol MolFromSmiles GetMorganFingerprintAsBitVect).
Local Abbreviation row_fp :=
  (GenFp.row_fp Mol MolFromSmiles GetMorganFingerprintAsBitVect).
Local Abbreviation for_lines :=
  (GenFp.for_lines Mol MolFromSmiles GetMorganFingerprintAsBitVect).
Local Abbreviation read_result :=
  (GenFp.read_result Mol MolFromSmiles GetMorganFingerprintAsBitVect).
Local Abbreviation generate_fingerprints :=
  (GenFp.generate_fingerprints Mol MolFromSmiles GetMorganFingerprintAsBitVect
     elapsed_text).
Local Abbreviation main :=
  (GenFp.main Mol MolFromSmiles GetMorganFingerprintAsBitVect elapsed_text).
Local Abbreviation script :=
  (GenFp.script Mol MolFromSmiles GetMorganFingerprintAsBitVect elapsed_text).

Lemma same_disk_refl w : same_disk w w.
Proof. done. Qed.

Lemma same_disk_trans w1 w2 w3 :
  same_disk w1 w2 -> same_disk w2 w3 -> same_disk w1 w3.
Proof. intros (?&?&?) (?&?&?). repeat split; congruence. Qed.

(** The decorator: a call that returns is followed by one more reading
    of the clock and one printed line; a call that raises by nothing. *)
Lemma timing_run {A} (name : pystr) (f : IO A) (w : World) :
  timing name f w =
  match f (set_ticks S w) with
  | (w1, Ret a) =>
      (set_stdout (fun out => out ++
         (name ++ [32] ++ Py.lit "Elapsed time: "
          ++ elapsed_text (w_clock w (w_ticks w)) (w_clock w1 (w_ticks w1))
          ++ Py.lit " sec") ++ [10]) (set_ticks S w1), Ret a)
  | (w1, Raise e) => (w1, Raise e)
  end.
Proof.
  unfold GenFp.timing, bind, time, print, ret.
  destruct (f (set_ticks S w)) as [w1 [a|e]]; reflexivity.
Qed.

(** The decorator changes neither the outcome nor the disk, and leaves
    the open handles as the call left them. *)
Lemma timing_frame {A} (name : pystr) (f : IO A) (w : World) :
  (timing name f w).2 = (f (set_ticks S w)).2
  /\ w_open (timing name f w).1 = w_open (f (set_ticks S w)).1
  /\ same_disk (f (set_ticks S w)).1 (timing name f w).1.
Proof.
  rewrite timing_run.
  destruct (f (set_ticks S w)) as [w1 [a|e]]; simpl; done.
Qed.

(** The loop body in terms of the tokens of the line. *)
Lemma loop_body_toks (acc : columns) (line : pystr) :
  loop_body acc line =
  match toks_of line with
  | smiles :: name :: _ => take_record acc smiles name
  | _ => Ret acc
  end.
Proof.
  unfold GenFp.loop_body, GenFp.take_record.
  destruct acc as [[fps smis] names].
  destruct (toks_of line) as [|smiles [|name rest]]; simpl; try done.
Qed.

(** The reading pass: its outcome is [read_result] of the input file; it
    writes nothing and opens no container. *)
Lemma generate_fingerprints_run (infile : pystr) (w : World) :
  let r := generate_fingerprints infile w in
  r.2 = read_result (w_fs w !! infile)
  /\ same_disk w r.1
  /\ w_open r.1 = match w_fs w !! infile with
                  | Some _ => TextHandle infile :: w_open w
                  | None => w_open w
                  end.
Proof.
  intros r. subst r. unfold GenFp.generate_fingerprints.
  destruct (timing_frame (Py.lit "generate_fingerprints")
    (ifs <- open infile ;;
     lines <- iter_lines ifs ;;
     lift (for_lines (Py.tqdm (Py.islice lines 1)) ([], [], [])))
    w) as (Hr & Ho & Hd).
  rewrite Hr, Ho.
  assert (Hd' : forall w', same_disk (set_ticks S w) w' -> same_disk w w').
  { intros w'. apply same_disk_trans. done. }
  unfold bind, open, iter_lines, lift in *. simpl in *.
  destruct (w_fs w !! infile) as [[s|c]|] eqn:Hin; simpl in *.
  - rewrite Hin in *. simpl in *. auto.
  - rewrite Hin in *. simpl in *. auto.
  - auto.
Qed.

(** The materialisation touches nothing but the clock and the output
    stream. *)
Lemma make_np_array_run (lst : list Np.ndarray) (w : World) :
  let r := make_np_array lst w in
  r.2 = match Np.array lst Np.float32 with
        | Some a => Ret a
        | None => Raise ValueError
        end
  /\ same_disk w r.1 /\ w_open r.1 = w_open w.
Proof.
  intros r. subst r. unfold GenFp.make_np_array.
  destruct (timing_frame (Py.lit "make_np_array")
    (lift (match Np.array lst Np.float32 with
           | Some a => Ret a
           | None => Raise ValueError
           end)) w) as (Hr & Ho & Hd).
  rewrite Hr, Ho. unfold lift in *. simpl in *.
  repeat split; try done; apply Hd.
Qed.

(** One dataset written to an open, fresh enough container. *)
Lemma create_dataset_run (path name : pystr) (shape : option (list nat))
    (data : H5py.pydata) (c : list (pystr * dataset)) (w : World) :
  H5Handle path ∈ w_open w ->
  w_fs w !! path = Some (hdf5_file c) ->
  name ∉ c.*1 ->
  Np.product (default (H5py.as_array data).1 shape)
  = Np.product (H5py.as_array data).1 ->
  H5py.create_dataset (H5Handle path) name shape data w =
  if w_writefail w path name then (w, Raise OSError)
  else (set_fs <[path := hdf5_file
           (c ++ [(name, mk_dataset (default (H5py.as_array data).1 shape)
                                    (H5py.as_array data).2)])]> w,
        Ret tt).
Proof.
  intros Hopen Hfs Hname Hshape. unfold H5py.create_dataset.
  rewrite bool_decide_eq_true_2 by done. simpl.
  destruct (H5py.as_array data) as [dshape payload]. simpl in *.
  rewrite Hshape, Nat.eqb_refl. simpl. rewrite Hfs.
  rewrite bool_decide_eq_false_2 by done. reflexivity.
Qed.

(** The names of the three datasets are distinct. *)
Lemma dataset_names_fresh :
(Py.lit "fp_list" ∉ ([] : list (pystr * dataset)).*1)
  /\ (forall d : dataset,
        Py.lit "smiles_list" ∉ [(Py.lit "fp_list", d)].*1)
  /\ (forall d d' : dataset,
        Py.lit "name_list"
        ∉ [(Py.lit "fp_list", d); (Py.lit "smiles_list", d')].*1).
Proof.
  split; [apply not_elem_of_nil|]. split; intros; simpl.
  - intros Hin%list_elem_of_singleton. discriminate Hin.
  - intros [Hin|Hin%list_elem_of_singleton]%elem_of_cons;
      discriminate Hin.
Qed.

(** The body of the writer, without the decorator. *)
Lemma save_data_body_run (fp_array : Np.ndarray)
    (smiles_list name_list : list pybytes) (out : pystr) (w : World) :
  let r := (h5f <- H5py.File out ;;
            H5py.create_dataset h5f (Py.lit "fp_list") None
              (H5py.DArray fp_array) ;;;
            H5py.create_dataset h5f (Py.lit "smiles_list")
              (Some [length smiles_list; 1%nat])
              (H5py.DList smiles_list) ;;;
            H5py.create_dataset h5f (Py.lit "name_list")
              (Some [length name_list; 1%nat]) (H5py.DList name_list) ;;;
            H5py.close h5f) w in
  let res := write_result (w_nocreate w out) (w_writefail w out)
               fp_array smiles_list name_list in
  r.2 = res.1.1
  /\ w_fs r.1 = match res.1.2 with
                | None => w_fs w
                | Some c => <[out := hdf5_file c]> (w_fs w)
                end
  /\ w_open r.1 = (if res.2 then H5Handle out :: w_open w else w_open w).
Proof.
  destruct dataset_names_fresh as (Hn1 & Hn2 & Hn3).
  intros r res. subst r res. unfold write_result, bind, H5py.File.
  cbv beta. destruct (w_nocreate w out) eqn:Hnc; [done|].
  cbv beta iota.
  set (w1 := set_open (cons (H5Handle out))
               (set_fs <[out := hdf5_file []]> w)).
  assert (Ho1 : H5Handle out ∈ w_open w1) by apply list_elem_of_here.
  rewrite (create_dataset_run out _ None _ [] w1 Ho1);
    [|apply lookup_insert_eq|exact Hn1|reflexivity].
  change (w_writefail w1 out) with (w_writefail w out).
  destruct (w_writefail w out (Py.lit "fp_list")) eqn:Hf1; [done|].
  cbv beta iota.
  set (w2 := set_fs _ w1).
  rewrite (create_dataset_run out _ _ _ [fp_dataset fp_array] w2 Ho1);
    [|apply lookup_insert_eq|apply Hn2|simpl; lia].
  change (w_writefail w2 out) with (w_writefail w out).
  destruct (w_writefail w out (Py.lit "smiles_list")) eqn:Hf2.
  { cbn [fst snd w_fs w_open w2 w1 set_fs set_open].
    rewrite insert_insert_eq. done. }
  cbv beta iota.
  set (w3 := set_fs _ w2).
  rewrite (create_dataset_run out _ _ _
             [fp_dataset fp_array; smiles_dataset smiles_list] w3 Ho1);
    [|apply lookup_insert_eq|apply Hn3|simpl; lia].
  change (w_writefail w3 out) with (w_writefail w out).
  destruct (w_writefail w out (Py.lit "name_list")) eqn:Hf3.
  { cbn [fst snd w_fs w_open w3 w2 w1 set_fs set_open].
    rewrite !insert_insert_eq. done. }
  cbv beta iota. unfold H5py.close.
  cbn [fst snd w_fs w_open w3 w2 w1 set_fs set_open H5py.remove1].
  rewrite !insert_insert_eq.
  rewrite bool_decide_eq_true_2 by done. done.
Qed.

(** The writer: outcome, output file and handle are [write_result] of
    the faults of the disk. *)
Lemma save_data_run (fp_array : Np.ndarray)
    (smiles_list name_list : list pybytes) (out : pystr) (w : World) :
  let r := save_data fp_array smiles_list name_list out w in
  let res := write_result (w_nocreate w out) (w_writefail w out)
               fp_array smiles_list name_list in
  r.2 = res.1.1
  /\ w_fs r.1 = match res.1.2 with
                | None => w_fs w
                | Some c => <[out := hdf5_file c]> (w_fs w)
                end
  /\ w_open r.1 = (if res.2 then H5Handle out :: w_open w else w_open w).
Proof.
  intros r res. subst r. unfold GenFp.save_data.
  match goal with
  | |- context [timing ?n ?f w] =>
      destruct (timing_frame n f w) as (Hr & Ho & (Hfs & _));
      destruct (save_data_body_run fp_array smiles_list name_list out
                  (set_ticks S w)) as (Br & Bfs & Bo)
  end.
  rewrite Hr, Ho, Hfs. auto.
Qed.

(** The whole pipeline: the reading pass, then the materialisation, then
    the writer, each reached only when the one before returned. *)
Lemma main_run (infile out : pystr) (w : World) :
  let r := main infile out w in
  let opened := match w_fs w !! infile with
                | Some _ => TextHandle infile :: w_open w
                | None => w_open w
                end in
  match read_result (w_fs w !! infile) with
  | Raise e => r.2 = Raise e /\ w_fs r.1 = w_fs w /\ w_open r.1 = opened
  | Ret (fp_list, smiles_list, name_list) =>
      match Np.array fp_list Np.float32 with
      | None =>
          r.2 = Raise ValueError /\ w_fs r.1 = w_fs w
          /\ w_open r.1 = opened
      | Some fp_array =>
          let res := write_result (w_nocreate w out) (w_writefail w out)
                       fp_array smiles_list name_list in
          r.2 = res.1.1
          /\ w_fs r.1 = match res.1.2 with
                        | None => w_fs w
                        | Some c => <[out := hdf5_file c]> (w_fs w)
                        end
          /\ w_open r.1
             = (if res.2 then H5Handle out :: opened else opened)
      end
  end.
Proof.
  intros r opened. subst r opened. unfold GenFp.main.
  match goal with
  | |- context [timing ?n ?f w] =>
      destruct (timing_frame n f w) as (Hr & Ho & (Hfs & _))
  end.
  rewrite Hr, Ho, Hfs. clear Hr Ho Hfs. unfold bind.
  destruct (generate_fingerprints_run infile (set_ticks S w))
    as (Gr & (Gfs & Gnc & Gwf) & Go).
  destruct (generate_fingerprints infile (set_ticks S w)) as [w1 gr].
  simpl in Gr, Gfs, Gnc, Gwf, Go. rewrite <- Gr.
  destruct gr as [[[fp_list smiles_list] name_list]|e];
    [|simpl; auto].
  destruct (make_np_array_run fp_list w1) as (Mr & (Mfs & Mnc & Mwf) & Mo).
  destruct (make_np_array fp_list w1) as [w2 mr].
  simpl in Mr, Mfs, Mnc, Mwf, Mo. subst mr.
  destruct (Np.array fp_list Np.float32) as [fp_array|].
  2:{ simpl. rewrite Mfs, Gfs, Mo, Go. auto. }
  destruct (save_data_run fp_array smiles_list name_list out w2)
    as (Sr & Sfs & So).
  rewrite Mnc, Gnc, Mwf, Gwf, Mfs, Gfs, Mo, Go in *.
  rewrite Sr, Sfs, So.
  destruct (write_result _ _ _ _ _) as [[? ?] []]; done.
Qed.

(** ** The command line *)

(** C7: an invocation whose number of positional arguments is not two
    prints the usage line with the program name to standard output and
    exits with status 1; it reads no clock, opens nothing and leaves the
    file system as it was, so no output file appears. With two arguments
    the script is the pipeline [main] on them. *)
Theorem usage_error_exit (prog : pystr) (args : list pystr) (w : World) :
  (length args <> 2%nat ->
   let r := script (prog :: args) w in
   r.2 = Raise (SystemExit 1)
   /\ exit_status r.2 = 1%Z
   /\ w_stdout r.1
      = w_stdout w ++ Py.lit "usage: " ++ prog
        ++ Py.lit " infile.smi outfile.h5" ++ [10]
   /\ w_fs r.1 = w_fs w /\ w_open r.1 = w_open w
   /\ w_ticks r.1 = w_ticks w)
  /\ (forall a b, args = [a; b] ->
        script (prog :: args) w = main a b w).
Proof.
  split.
  - intros Hlen r. subst r. unfold GenFp.script, bind.
    destruct (Nat.eqb_spec (length (prog :: args)) 3) as [Heq|_].
    { simpl in Heq. lia. }
    simpl. rewrite <- !app_assoc. done.
  - intros a b ->. reflexivity.
Qed.

(** ** The header line *)

(** C5: the first line of the input is skipped whatever the file holds:
    the loop runs over the lines after it, in order; a file of no line
    or of one line gives three empty columns and no error; and the text
    of the first line has no part in the result. *)
Theorem header_line_skipped (infile content : pystr) (w : World) :
  w_fs w !! infile = Some (text_file content) ->
  let lines := Py.readlines content in
  let r := generate_fingerprints infile w in
  Py.islice lines 1 = tail lines
  /\ r.2 = for_lines (tail lines) ([], [], [])
  /\ ((length lines <= 1)%nat -> r.2 = Ret ([], [], []))
  /\ (forall header body,
        10 ∉ header -> content = header ++ 10 :: body ->
        lines = (header ++ [10]) :: Py.readlines body
        /\ r.2 = for_lines (Py.readlines body) ([], [], [])).
Proof.
  intros Hin lines r.
  destruct (generate_fingerprints_run infile w) as (Hr & _).
  fold r in Hr. rewrite Hin in Hr. simpl in Hr.
  assert (Htl : drop 1 lines = tail lines) by (destruct lines; done).
  fold lines in Hr. rewrite Htl in Hr.
  split; [exact Htl|]. split; [exact Hr|]. split.
  - intros Hlen. rewrite Hr.
    destruct lines as [|l [|l' ls]]; simpl in *; [done|done|lia].
  - intros header body Hh ->.
    assert (Hl : lines = (header ++ [10]) :: Py.readlines body).
    { subst lines. unfold Py.readlines.
      rewrite (PyFacts.lines_from_first header [] body Hh). done. }
    split; [exact Hl|]. rewrite Hr, Hl. done.
Qed.

(** ** The tokens of a line *)

(** C3, amended: a line is stripped of the white space at its two ends,
    all of it: what is cut off is white space and what is left neither
    starts nor ends with white space; the stripped line is cut at every
    single space character; a line of fewer than two
    tokens is skipped, otherwise the first token is the structure and
    the second the identifier, whatever follows; a stripped line
    without a space, such as two fields with a tab between them, is one
    token and is skipped. *)
Theorem line_cut_at_single_spaces (acc : columns) (line : pystr) :
  let toks := toks_of line in
  (exists pre post, line = pre ++ Py.strip line ++ post
     /\ Forall (fun c => Py.isspace c = true) pre
     /\ Forall (fun c => Py.isspace c = true) post
     /\ (forall c, head (Py.strip line) = Some c -> Py.isspace c = false)
     /\ (forall c, last (Py.strip line) = Some c -> Py.isspace c = false))
  /\ Py.join [32] toks = Py.strip line
  /\ Forall (fun t => 32 ∉ t) toks
  /\ ((length toks < 2)%nat -> loop_body acc line = Ret acc)
  /\ (forall smiles name rest,
        toks = smiles :: name :: rest ->
        loop_body acc line = take_record acc smiles name)
  /\ (32 ∉ Py.strip line -> loop_body acc line = Ret acc).
Proof.
  intros toks. subst toks. unfold toks_of.
  destruct (PyFacts.strip_spec line)
    as (pre & post & Hl & Hpre & Hpost & Hhd & Hlast).
  split; [by exists pre, post|].
  split; [apply PyFacts.split_join|].
  split; [apply PyFacts.split_no_sep|].
  rewrite loop_body_toks. unfold toks_of. repeat split.
  - intros Hlen.
    destruct (Py.split (Py.strip line) 32) as [|a [|b rest]];
      simpl in *; [done|done|lia].
  - intros smiles name rest ->. done.
  - intros Hno. rewrite (PyFacts.split_none _ _ Hno). done.
Qed.

(** C9: when two spaces or more follow the first field of a stripped
    line, the token at index 1 is the empty string; the loop takes the
    record with the empty identifier, and when the first field parses
    the row it appends carries the empty byte string as its name. *)
Theorem double_space_empty_identifier
    (fps : list Np.ndarray) (smis names : list pybytes)
    (line first rest : pystr) :
  Py.strip line = first ++ [32; 32] ++ rest ->
  32 ∉ first ->
  toks_of line !! 0%nat = Some first
  /\ toks_of line !! 1%nat = Some []
  /\ loop_body (fps, smis, names) line
     = take_record (fps, smis, names) first []
  /\ (forall m fp,
        MolFromSmiles first = Ret (Some m) ->
        GetMorganFingerprintAsBitVect m 3 1024 = Ret fp ->
        loop_body (fps, smis, names) line
        = Ret (fps ++ [DataStructs.ConvertToNumpyArray fp
                         (Np.zeros [1%nat])],
               smis ++ [Py.encode_ascii_ignore first],
               names ++ [[]])).
Proof.
  intros Hs Hfirst.
  assert (Ht : toks_of line = first :: [] :: Py.split rest 32).
  { unfold toks_of. rewrite Hs. simpl.
    rewrite (PyFacts.split_app first _ 32 Hfirst). simpl. done. }
  rewrite loop_body_toks, Ht. repeat split.
  intros m fp Hm Hfp. unfold GenFp.take_record. rewrite Hm, Hfp. done.
Qed.

(** ** The stored strings *)

(** C6: the bytes stored for the structure and for the identifier of a
    parsed record are the code points below 128 of the two tokens, in
    their order: every other character is dropped and nothing is
    raised. *)
Theorem stored_strings_ascii_ignore
    (fps : list Np.ndarray) (smis names : list pybytes)
    (line smiles name : pystr) (rest : list pystr)
    (m : Mol) (fp : DataStructs.BitVect) :
  toks_of line = smiles :: name :: rest ->
  MolFromSmiles smiles = Ret (Some m) ->
  GetMorganFingerprintAsBitVect m 3 1024 = Ret fp ->
  exists arr bs bn,
    loop_body (fps, smis, names) line
    = Ret (fps ++ [arr], smis ++ [bs], names ++ [bn])
    /\ map Byte.to_N bs = filter (fun c => c < 128) smiles
    /\ map Byte.to_N bn = filter (fun c => c < 128) name
    /\ ((forall c, c ∈ smiles -> c < 128) -> map Byte.to_N bs = smiles)
    /\ ((forall c, c ∈ name -> c < 128) -> map Byte.to_N bn = name).
Proof.
  intros Ht Hm Hfp.
  eexists _, (Py.encode_ascii_ignore smiles), (Py.encode_ascii_ignore name).
  rewrite loop_body_toks, Ht. unfold GenFp.take_record. rewrite Hm, Hfp.
  split; [reflexivity|].
  rewrite !PyFacts.encode_ascii_ignore_spec. repeat split.
  - apply PyFacts.filter_ascii_id.
  - apply PyFacts.filter_ascii_id.
Qed.

(** ** The three columns *)

Lemma accepted_iff (line : pystr) :
  accepted line = true <->
  (2 <= length (toks_of line))%nat
  /\ exists m, MolFromSmiles (default [] (toks_of line !! 0%nat))
               = Ret (Some m).
Proof.
  unfold GenFp.accepted.
  destruct (toks_of line) as [|a [|b rest]]; simpl;
    [split; [done|lia]|split; [done|lia]|].
  destruct (MolFromSmiles a) as [[m|]|e]; split; try done.
  - intros _. split; [lia|]. by exists m.
  - intros [_ [m [=]]].
  - intros [_ [m [=]]].
Qed.

(** One turn of the loop on a line the toolkit does not raise on: an
    accepted line adds its row to each column, any other line nothing. *)
Lemma loop_body_row (fps : list Np.ndarray) (smis names : list pybytes)
    (line : pystr) :
  toolkit_returns line ->
  loop_body (fps, smis, names) line =
  Ret (if accepted line
       then (fps ++ [row_fp line], smis ++ [row_smiles line],
             names ++ [row_name line])
       else (fps, smis, names)).
Proof.
  rewrite loop_body_toks.
  unfold GenFp.toolkit_returns, GenFp.accepted, GenFp.row_fp,
    GenFp.row_smiles, GenFp.row_name, GenFp.fp_of, GenFp.take_record.
  destruct (toks_of line) as [|a [|b rest]]; simpl; try done.
  destruct (MolFromSmiles a) as [[m|]|e]; try done.
  intros [fp ->]. done.
Qed.

Lemma for_lines_cons (line : pystr) (lines : list pystr) (acc : columns) :
  for_lines (line :: lines) acc
  = obind (loop_body acc line) (for_lines lines).
Proof. reflexivity. Qed.

Lemma for_lines_rows (lines : list pystr) (fps : list Np.ndarray)
    (smis names : list pybytes) :
  Forall toolkit_returns lines ->
  for_lines lines (fps, smis, names) =
  Ret (fps ++ map row_fp (filter (fun l => accepted l) lines),
       smis ++ map row_smiles (filter (fun l => accepted l) lines),
       names ++ map row_name (filter (fun l => accepted l) lines)).
Proof.
  intros Hall. revert fps smis names.
  induction Hall as [|line lines Hline _ IH]; intros fps smis names.
  - simpl. rewrite !app_nil_r. done.
  - rewrite for_lines_cons, (loop_body_row _ _ _ _ Hline).
    cbn [obind].
    destruct (accepted line) eqn:Hacc.
    + rewrite filter_cons_True by (by apply Is_true_true).
      rewrite IH. simpl. rewrite <- !app_assoc. done.
    + rewrite filter_cons_False by (by apply Is_true_false). apply IH.
Qed.

(** C1: the three columns the reading pass returns have the same number
    of rows, the number of lines after the header that have two tokens
    or more and a first token the parser accepts; and row i of each
    column is the entry of the i-th such line, in the order of the
    file. *)
Theorem columns_aligned (infile content : pystr) (w : World) :
  w_fs w !! infile = Some (text_file content) ->
  Forall toolkit_returns (tail (Py.readlines content)) ->
  let recs := filter (fun l => accepted l) (tail (Py.readlines content)) in
  exists fps smis names,
    (generate_fingerprints infile w).2 = Ret (fps, smis, names)
    /\ length fps = length recs
    /\ length smis = length recs
    /\ length names = length recs
    /\ (forall i line,
          recs !! i = Some line ->
          fps !! i = Some (row_fp line)
          /\ smis !! i = Some (row_smiles line)
          /\ names !! i = Some (row_name line)).
Proof.
  intros Hin Hall recs.
  destruct (generate_fingerprints_run infile w) as (Hr & _).
  rewrite Hin in Hr. simpl in Hr.
  assert (Htl : drop 1 (Py.readlines content) = tail (Py.readlines content))
    by (destruct (Py.readlines content); done).
  rewrite Htl, (for_lines_rows _ _ _ _ Hall) in Hr. simpl in Hr.
  fold recs in Hr.
  exists (map row_fp recs), (map row_smiles recs), (map row_name recs).
  split; [exact Hr|]. rewrite !length_map.
  split; [done|]. split; [done|]. split; [done|].
  intros i line Hi. repeat split.
  - change (map row_fp recs) with (row_fp <$> recs).
    rewrite list_lookup_fmap, Hi. done.
  - change (map row_smiles recs) with (row_smiles <$> recs).
    rewrite list_lookup_fmap, Hi. done.
  - change (map row_name recs) with (row_name <$> recs).
    rewrite list_lookup_fmap, Hi. done.
Qed.

(** ** The fingerprint array *)

(** Rows of one length stack to a two-dimensional array; no row gives
    the one-dimensional empty array. *)
Lemma array_of_rows (recs : list pystr) (nbits : nat) :
  Forall (fun l => length (fp_of l) = nbits) recs ->
  Np.array (map row_fp recs) Np.float32
  = Some (Np.mk_ndarray Np.float32
            (match recs with
             | [] => [0%nat]
             | _ => [length recs; nbits]
             end)
            (concat (map (fun l => map Z.b2z (fp_of l)) recs))).
Proof.
  intros Hall. destruct recs as [|l recs]; [done|].
  apply Forall_cons in Hall as [Hl Hrest].
  assert (Hsame : forallb
            (fun b => bool_decide (Np.nd_shape b = Np.nd_shape (row_fp l)))
            (map row_fp recs) = true).
  { apply forallb_forall. intros a [l' [<- Hin]]%in_map_iff.
    apply bool_decide_eq_true_2.
    cbn [Np.nd_shape GenFp.row_fp DataStructs.ConvertToNumpyArray].
    rewrite Forall_forall in Hrest.
    rewrite (Hrest l') by (by apply list_elem_of_In). by rewrite Hl. }
  unfold Np.array. cbn [map]. rewrite Hsame.
  cbn [length Np.nd_shape Np.nd_data GenFp.row_fp
       DataStructs.ConvertToNumpyArray].
  rewrite length_map, Hl.
  do 2 f_equal. cbn [map concat]. f_equal.
  rewrite map_map. done.
Qed.

(** The fingerprint of an accepted line has the length the toolkit
    promises. *)
Lemma accepted_fp_length (line : pystr) :
  (forall m fp, GetMorganFingerprintAsBitVect m 3 1024 = Ret fp ->
                length fp = 1024%nat) ->
  toolkit_returns line -> accepted line = true ->
  length (fp_of line) = 1024%nat.
Proof.
  intros Hlen. unfold GenFp.toolkit_returns, GenFp.accepted, GenFp.fp_of.
  destruct (toks_of line) as [|a [|b rest]]; simpl; try done.
  destruct (MolFromSmiles a) as [[m|]|e]; try done.
  intros [fp Hfp] _. rewrite Hfp. by apply (Hlen m).
Qed.

(** C2, amended: on a disk that takes the writes, the run returns and
    the output file holds the three datasets. With N rows, N at least
    one, [fp_list] is a dense array of shape (N, 1024) of 32-bit floats
    whose rows are the radius-3, 1024-bit fingerprints of the records in
    order; with no row, as for a file of a header only, [fp_list] is the
    one-dimensional array of shape (0,), and the two string columns have
    shape (0, 1): no rows in any of the three. *)
Theorem fp_array_shape (infile out content : pystr) (w : World) :
  w_fs w !! infile = Some (text_file content) ->
  Forall toolkit_returns (tail (Py.readlines content)) ->
  (forall m fp, GetMorganFingerprintAsBitVect m 3 1024 = Ret fp ->
                length fp = 1024%nat) ->
  w_nocreate w out = false ->
  (forall name, w_writefail w out name = false) ->
  let recs := filter (fun l => accepted l) (tail (Py.readlines content)) in
  let r := main infile out w in
  r.2 = Ret tt
  /\ w_fs r.1 !! out = Some (hdf5_file
       [(Py.lit "fp_list",
         mk_dataset (match recs with
                     | [] => [0%nat]
                     | _ => [length recs; 1024%nat]
                     end)
           (H5Floats Np.float32
              (concat (map (fun l => map Z.b2z (fp_of l)) recs))));
        (Py.lit "smiles_list",
         mk_dataset [length recs; 1%nat]
           (H5VlenBytes (map row_smiles recs)));
        (Py.lit "name_list",
         mk_dataset [length recs; 1%nat]
           (H5VlenBytes (map row_name recs)))])
  /\ Forall (fun l => length (fp_of l) = 1024%nat) recs.
Proof.
  intros Hin Hall Hlen Hnc Hwf recs r.
  assert (Hrecs : Forall (fun l => length (fp_of l) = 1024%nat) recs).
  { apply Forall_forall. intros l [Hacc Hl]%list_elem_of_filter.
    apply accepted_fp_length; [done| |by apply Is_true_true].
    rewrite Forall_forall in Hall. by apply Hall. }
  pose proof (main_run infile out w) as Hm. cbv zeta in Hm. fold r in Hm.
  rewrite Hin in Hm. unfold GenFp.read_result in Hm.
  assert (Htl : drop 1 (Py.readlines content) = tail (Py.readlines content))
    by (destruct (Py.readlines content); done).
  rewrite Htl, (for_lines_rows _ _ _ _ Hall) in Hm. simpl app in Hm.
  fold recs in Hm. rewrite (array_of_rows recs 1024 Hrecs) in Hm.
  unfold write_result in Hm. rewrite Hnc, !Hwf in Hm.
  destruct Hm as (Hr & Hfs & _). simpl in Hr, Hfs.
  split; [exact Hr|]. split; [|exact Hrecs].
  rewrite Hfs, lookup_insert_eq.
  unfold fp_dataset, smiles_dataset, name_dataset. simpl.
  rewrite !length_map. done.
Qed.

(** ** The writer and its handle *)

(** C4, amended: the writer closes its handle on the path of a normal
    return, which it takes exactly when the file can be created and the
    three writes succeed; when the file cannot be created no handle was
    opened and the disk is as before; when one of the three writes
    raises, the error leaves the writer with the handle still open, and
    the file of the datasets written so far stays on the disk. *)
Theorem writer_closes_on_return (fp_array : Np.ndarray)
    (smiles_list name_list : list pybytes) (out : pystr) (w : World) :
  let r := save_data fp_array smiles_list name_list out w in
  (r.2 = Ret tt <->
   w_nocreate w out = false
   /\ w_writefail w out (Py.lit "fp_list") = false
   /\ w_writefail w out (Py.lit "smiles_list") = false
   /\ w_writefail w out (Py.lit "name_list") = false)
  /\ (r.2 = Ret tt ->
      w_open r.1 = w_open w
      /\ w_fs r.1 !! out = Some (hdf5_file
           [fp_dataset fp_array; smiles_dataset smiles_list;
            name_dataset name_list]))
  /\ (w_nocreate w out = true ->
      r.2 = Raise OSError /\ w_open r.1 = w_open w /\ w_fs r.1 = w_fs w)
  /\ (w_nocreate w out = false ->
      forall e, r.2 = Raise e ->
      w_open r.1 = H5Handle out :: w_open w
      /\ exists c, w_fs r.1 !! out = Some (hdf5_file c)
                  /\ (length c < 3)%nat).
Proof.
  intros r.
  destruct (save_data_run fp_array smiles_list name_list out w)
    as (Hr & Hfs & Ho).
  fold r in Hr, Hfs, Ho. rewrite Hr, Hfs, Ho. clear Hr Hfs Ho.
  unfold write_result.
  assert (Hpartial : forall (c : list (pystr * dataset)) (hs : list handle),
    (length c < 3)%nat ->
    forall e : exn, @Raise unit OSError = Raise e ->
    hs = hs /\ exists c', <[out := hdf5_file c]> (w_fs w) !! out
                          = Some (hdf5_file c') /\ (length c' < 3)%nat).
  { intros c hs Hc e _. split; [done|]. exists c.
    by rewrite lookup_insert_eq. }
  destruct (w_nocreate w out).
  { simpl. split; [split; [done|intros (?&_); done]|]. done. }
  destruct (w_writefail w out (Py.lit "fp_list")).
  { simpl. split; [split; [done|intros (_&?&_); done]|].
    split; [done|]. split; [done|]. intros _. apply Hpartial. simpl. lia. }
  destruct (w_writefail w out (Py.lit "smiles_list")).
  { simpl. split; [split; [done|intros (_&_&?&_); done]|].
    split; [done|]. split; [done|]. intros _. apply Hpartial. simpl. lia. }
  destruct (w_writefail w out (Py.lit "name_list")).
  { simpl. split; [split; [done|intros (_&_&_&?); done]|].
    split; [done|]. split; [done|]. intros _. apply Hpartial. simpl. lia. }
  simpl. split; [done|]. split.
  { intros _. split; [done|]. apply lookup_insert_eq. }
  split; [done|]. intros _ e [=].
Qed.

(** ** Determinism *)

(** C8: what a run leaves at the output path is a function of the input
    file: two runs on the same input that both return leave the same
    dataset, whatever the clocks, the output streams, the open handles
    and the other files of the two worlds; and when the two disks also
    agree on their faults and on what the output path held before, the
    two runs end the same way, returning or raising, with the same
    file. *)
Theorem runs_agree (infile out : pystr) (w1 w2 : World) :
  w_fs w1 !! infile = w_fs w2 !! infile ->
  let r1 := main infile out w1 in
  let r2 := main infile out w2 in
  (r1.2 = Ret tt -> r2.2 = Ret tt ->
   w_fs r1.1 !! out = w_fs r2.1 !! out)
  /\ (w_nocreate w1 out = w_nocreate w2 out ->
      (forall name, w_writefail w1 out name = w_writefail w2 out name) ->
      w_fs w1 !! out = w_fs w2 !! out ->
      r1.2 = r2.2 /\ w_fs r1.1 !! out = w_fs r2.1 !! out).
Proof.
  intros Hin r1 r2.
  pose proof (main_run infile out w1) as H1.
  pose proof (main_run infile out w2) as H2.
  cbv zeta in H1, H2. fold r1 in H1. fold r2 in H2.
  rewrite <- Hin in H2.
  destruct (read_result (w_fs w1 !! infile))
    as [[[fp_list smiles_list] name_list]|e].
  2:{ destruct H1 as (Hr1 & Hf1 & _), H2 as (Hr2 & Hf2 & _).
      rewrite Hr1, Hr2, Hf1, Hf2. split; [done|]. auto. }
  destruct (Np.array fp_list Np.float32) as [fp_array|].
  2:{ destruct H1 as (Hr1 & Hf1 & _), H2 as (Hr2 & Hf2 & _).
      rewrite Hr1, Hr2, Hf1, Hf2. split; [done|]. auto. }
  destruct H1 as (Hr1 & Hf1 & _), H2 as (Hr2 & Hf2 & _).
  rewrite Hr1, Hr2, Hf1, Hf2. clear Hr1 Hr2 Hf1 Hf2. split.
  - unfold write_result.
    destruct (w_nocreate w1 out); [done|].
    destruct (w_writefail w1 out (Py.lit "fp_list")); [done|].
    destruct (w_writefail w1 out (Py.lit "smiles_list")); [done|].
    destruct (w_writefail w1 out (Py.lit "name_list")); [done|].
    destruct (w_nocreate w2 out); [done|].
    destruct (w_writefail w2 out (Py.lit "fp_list")); [done|].
    destruct (w_writefail w2 out (Py.lit "smiles_list")); [done|].
    destruct (w_writefail w2 out (Py.lit "name_list")); [done|].
    intros _ _. simpl. rewrite !lookup_insert_eq. done.
  - intros Hnc Hwf Hout. unfold write_result.
    rewrite <- Hnc, <- !Hwf.
    destruct (w_nocreate w1 out); [done|].
    destruct (w_writefail w1 out (Py.lit "fp_list"));
      [simpl; by rewrite !lookup_insert_eq|].
    destruct (w_writefail w1 out (Py.lit "smiles_list"));
      [simpl; by rewrite !lookup_insert_eq|].
    destruct (w_writefail w1 out (Py.lit "name_list"));
      simpl; by rewrite !lookup_insert_eq.
Qed.

(** ** The write phase starts last *)

(** C10: when the reading pass raises (the input file is missing, it
    does not decode, or the toolkit raises on a record) or the
    materialisation raises, the run raises the same error, the file
    system is as it was and no container handle was opened; so a run
    that changed the file system or opened the output went through a
    reading pass and a materialisation that both returned. *)
Theorem output_untouched_on_failure (infile out : pystr) (w : World) :
  let r := main infile out w in
  let g := (generate_fingerprints infile w).2 in
  (forall e,
     (g = Raise e
      \/ exists fp_list smiles_list name_list,
           g = Ret (fp_list, smiles_list, name_list)
           /\ Np.array fp_list Np.float32 = None /\ e = ValueError) ->
     r.2 = Raise e /\ w_fs r.1 = w_fs w
     /\ (forall p, H5Handle p ∈ w_open r.1 -> H5Handle p ∈ w_open w))
  /\ (w_fs r.1 <> w_fs w
      \/ (H5Handle out ∈ w_open r.1 /\ H5Handle out ∉ w_open w) ->
      exists fp_list smiles_list name_list fp_array,
        g = Ret (fp_list, smiles_list, name_list)
        /\ Np.array fp_list Np.float32 = Some fp_array)
  /\ (w_fs w !! infile = None -> g = Raise FileNotFoundError)
  /\ (forall c, w_fs w !! infile = Some (hdf5_file c) ->
                g = Raise UnicodeDecodeError)
  /\ (forall content pre line post e acc,
        w_fs w !! infile = Some (text_file content) ->
        tail (Py.readlines content) = pre ++ line :: post ->
        for_lines pre ([], [], []) = Ret acc ->
        loop_body acc line = Raise e ->
        g = Raise e).
Proof.
  intros r g.
  destruct (generate_fingerprints_run infile w) as (Hg & _). fold g in Hg.
  pose proof (main_run infile out w) as Hm. cbv zeta in Hm. fold r in Hm.
  rewrite <- Hg in Hm. clearbody r g.
  assert (Hopen : forall p,
    H5Handle p ∈ match w_fs w !! infile with
                 | Some _ => TextHandle infile :: w_open w
                 | None => w_open w
                 end -> H5Handle p ∈ w_open w).
  { intros p. destruct (w_fs w !! infile); [|done].
    intros [?|?]%elem_of_cons; done. }
  split; [|split; [|split; [|split]]].
  - intros e [He|(fp_list & smiles_list & name_list & He & Harr & ->)];
      rewrite He in Hm.
    + destruct Hm as (Hr & Hfs & Ho). rewrite Ho. auto.
    + rewrite Harr in Hm. destruct Hm as (Hr & Hfs & Ho). rewrite Ho. auto.
  - intros Hch. destruct g as [[[fp_list smiles_list] name_list]|e].
    + destruct (Np.array fp_list Np.float32) as [fp_array|] eqn:Harr.
      * by exists fp_list, smiles_list, name_list, fp_array.
      * destruct Hm as (Hr & Hfs & Ho). rewrite Ho in Hch.
        destruct Hch as [?|(Hi & Hni)]; [done|].
        by apply Hopen in Hi.
    + destruct Hm as (Hr & Hfs & Ho). rewrite Ho in Hch.
      destruct Hch as [?|(Hi & Hni)]; [done|]. by apply Hopen in Hi.
  - intros Hin. rewrite Hg, Hin. done.
  - intros c Hin. rewrite Hg, Hin. done.
  - intros content pre line post e acc Hin Htl Hpre Hline.
    rewrite Hg, Hin. unfold GenFp.read_result.
    assert (Hd : drop 1 (Py.readlines content)
                 = tail (Py.readlines content))
      by (destruct (Py.readlines content); done).
    rewrite Hd, Htl. clear Hd Htl Hin Hg Hm.
    revert Hpre. generalize (([], [], []) : columns).
    induction pre as [|l pre IH]; intros acc0 Hpre.
    + simpl in Hpre. injection Hpre as ->.
      simpl app. rewrite for_lines_cons, Hline. done.
    + simpl app. rewrite for_lines_cons in *.
      destruct (loop_body acc0 l) as [acc1|e1]; [|done].
      simpl in *. by apply IH.
Qed.

End Properties.

(** * The script on concrete files *)

(** C3: the line CCO, tab, ethanol has two white-space-separated tokens
    and a structure the parser accepts, so a reading by white space
    gives it a row; the loop skips it. *)
Lemma tab_line_dropped :
  whitespace_tokens Toy.tab_line = [Py.lit "CCO"; Py.lit "ethanol"]
  /\ Toy.parse (Py.lit "CCO") = Ret (Some (Py.lit "CCO"))
  /\ Toy.loop_body ([], [], []) Toy.tab_line = Ret ([], [], [])
  /\ Toy.spec_loop_body ([], [], []) Toy.tab_line
     <> Toy.loop_body ([], [], []) Toy.tab_line.
Proof.
  split; [reflexivity|]. split; [reflexivity|]. split; [reflexivity|].
  vm_compute. discriminate.
Qed.

(** C2: for a file of a header only the array written as [fp_list] has
    the shape (0,), not (0, 1024). *)
Lemma header_only_fp_list_shape :
  let r := Toy.main Toy.infile Toy.outfile Toy.header_only_world in
  r.2 = Ret tt
  /\ exists d rest,
       w_fs r.1 !! Toy.outfile
       = Some (hdf5_file ((Py.lit "fp_list", d) :: rest))
       /\ ds_shape d = [0%nat]
       /\ ds_shape d <> [0%nat; 1024%nat].
Proof.
  split; [vm_compute; reflexivity|].
  eexists _, _. split; [vm_compute; reflexivity|].
  split; [reflexivity|discriminate].
Qed.

(** C4: when the write of the second dataset fails, the writer raises
    and its handle, which was not open before, is open after. *)
Lemma failed_write_leaves_handle_open :
  let r := Toy.save_data (Np.mk_ndarray Np.float32 [0%nat] []) [] []
             Toy.outfile Toy.full_disk_world in
  r.2 = Raise OSError
  /\ w_open Toy.full_disk_world = []
  /\ w_open r.1 = [H5Handle Toy.outfile]
  /\ H5Handle Toy.outfile ∈ w_open r.1.
Proof.
  split; [vm_compute; reflexivity|]. split; [reflexivity|].
  split; [vm_compute; reflexivity|].
  vm_compute. constructor.
Qed.

(** The toy toolkit raises on no line of the scenario. *)
Lemma scenario_toolkit_returns :
  Forall Toy.toolkit_returns (tail (Py.readlines Toy.scenario)).
Proof.
  repeat (constructor;
          [vm_compute; first [exact I | eexists; reflexivity]|]).
  constructor.
Defined.

Lemma toy_fingerprint_length (m : pystr) (radius nBits : nat)
    (fp : DataStructs.BitVect) :
  Toy.fingerprint m radius nBits = Ret fp -> length fp = nBits.
Proof.
  unfold Toy.fingerprint. intros Hfp. injection Hfp as <-.
  rewrite length_map, length_seq. reflexivity.
Defined.

(** One argument only: the usage line and status 1. *)
Lemma usage_error_exit_witness :
  length [Toy.infile] <> 2%nat
  /\ exit_status
       (Toy.script [Py.lit "gen_fp.py"; Toy.infile] Toy.scenario_world).2
     = 1%Z
  /\ w_fs (Toy.script [Py.lit "gen_fp.py"; Toy.infile]
             Toy.scenario_world).1
     = w_fs Toy.scenario_world.
Proof.
  assert (Hlen : length [Toy.infile] <> 2%nat) by (simpl; lia).
  split; [exact Hlen|].
  destruct (proj1 (usage_error_exit pystr Toy.parse Toy.fingerprint
                     Toy.elapsed (Py.lit "gen_fp.py") [Toy.infile]
                     Toy.scenario_world) Hlen)
    as (_ & Hstatus & _ & Hfs & _).
  split; [exact Hstatus|exact Hfs].
Defined.

(** The scenario: the loop runs over the three lines after the header. *)
Lemma header_line_skipped_witness :
  w_fs Toy.scenario_world !! Toy.infile = Some (text_file Toy.scenario)
  /\ (Toy.generate_fingerprints Toy.infile Toy.scenario_world).2
     = Toy.for_lines (tail (Py.readlines Toy.scenario)) ([], [], []).
Proof.
  assert (Hin : w_fs Toy.scenario_world !! Toy.infile
                = Some (text_file Toy.scenario)) by reflexivity.
  split; [exact Hin|].
  exact (proj1 (proj2 (header_line_skipped pystr Toy.parse Toy.fingerprint
                         Toy.elapsed Toy.infile Toy.scenario
                         Toy.scenario_world Hin))).
Defined.

(** The tab line has no space: it is skipped. *)
Lemma line_cut_at_single_spaces_witness :
(32 ∉ Py.strip Toy.tab_line)
  /\ Toy.loop_body ([], [], []) Toy.tab_line = Ret ([], [], []).
Proof.
  assert (Hno : 32 ∉ Py.strip Toy.tab_line).
  { apply (bool_decide_unpack _). vm_compute. exact I. }
  split; [exact Hno|].
  destruct (line_cut_at_single_spaces pystr Toy.parse Toy.fingerprint
              ([], [], []) Toy.tab_line) as (_ & _ & _ & _ & _ & Hskip).
  exact (Hskip Hno).
Defined.

(** Two spaces after CCO: the identifier is the empty string. *)
Lemma double_space_empty_identifier_witness :
  Py.strip Toy.two_space_line
  = Py.lit "CCO" ++ [32; 32] ++ Py.lit "ethanol"
  /\ (32 ∉ Py.lit "CCO")
  /\ toks_of Toy.two_space_line !! 1%nat = Some [].
Proof.
  assert (Hs : Py.strip Toy.two_space_line
               = Py.lit "CCO" ++ [32; 32] ++ Py.lit "ethanol")
    by reflexivity.
  assert (Hno : 32 ∉ Py.lit "CCO").
  { apply (bool_decide_unpack _). vm_compute. exact I. }
  split; [exact Hs|]. split; [exact Hno|].
  exact (proj1 (proj2 (double_space_empty_identifier pystr Toy.parse
                         Toy.fingerprint [] [] [] Toy.two_space_line
                         (Py.lit "CCO") (Py.lit "ethanol") Hs Hno))).
Defined.

(** A name with a character outside ASCII: the character is dropped. *)
Lemma stored_strings_ascii_ignore_witness :
  toks_of Toy.accent_line = [Py.lit "CCO"; Py.lit "caf" ++ [233]]
  /\ Toy.parse (Py.lit "CCO") = Ret (Some (Py.lit "CCO"))
  /\ Toy.fingerprint (Py.lit "CCO") 3 1024 = Ret Toy.cco_bits
  /\ exists arr bs bn,
       Toy.loop_body ([], [], []) Toy.accent_line
       = Ret ([] ++ [arr], [] ++ [bs], [] ++ [bn])
       /\ map Byte.to_N bs = filter (fun c => c < 128) (Py.lit "CCO")
       /\ map Byte.to_N bn
          = filter (fun c => c < 128) (Py.lit "caf" ++ [233])
       /\ ((forall c, c ∈ Py.lit "CCO" -> c < 128) ->
           map Byte.to_N bs = Py.lit "CCO")
       /\ ((forall c, c ∈ Py.lit "caf" ++ [233] -> c < 128) ->
           map Byte.to_N bn = Py.lit "caf" ++ [233]).
Proof.
  assert (Ht : toks_of Toy.accent_line
               = [Py.lit "CCO"; Py.lit "caf" ++ [233]]) by reflexivity.
  assert (Hm : Toy.parse (Py.lit "CCO") = Ret (Some (Py.lit "CCO")))
    by reflexivity.
  assert (Hfp : Toy.fingerprint (Py.lit "CCO") 3 1024 = Ret Toy.cco_bits)
    by reflexivity.
  split; [exact Ht|]. split; [exact Hm|]. split; [exact Hfp|].
  exact (stored_strings_ascii_ignore pystr Toy.parse Toy.fingerprint
           [] [] [] Toy.accent_line (Py.lit "CCO") (Py.lit "caf" ++ [233])
           [] (Py.lit "CCO") Toy.cco_bits Ht Hm Hfp).
Defined.

(** The scenario gives two aligned rows. *)
Lemma columns_aligned_witness :
  w_fs Toy.scenario_world !! Toy.infile = Some (text_file Toy.scenario)
  /\ Forall Toy.toolkit_returns (tail (Py.readlines Toy.scenario))
  /\ exists fps smis names,
       (Toy.generate_fingerprints Toy.infile Toy.scenario_world).2
       = Ret (fps, smis, names)
       /\ length fps = 2%nat /\ length smis = 2%nat
       /\ length names = 2%nat.
Proof.
  assert (Hin : w_fs Toy.scenario_world !! Toy.infile
                = Some (text_file Toy.scenario)) by reflexivity.
  split; [exact Hin|]. split; [exact scenario_toolkit_returns|].
  destruct (columns_aligned pystr Toy.parse Toy.fingerprint Toy.elapsed
              Toy.infile Toy.scenario Toy.scenario_world Hin
              scenario_toolkit_returns)
    as (fps & smis & names & Hr & Hf & Hs & Hn & _).
  exists fps, smis, names. repeat split; assumption.
Defined.

(** The scenario on a disk without faults: the run returns. *)
Lemma fp_array_shape_witness :
  w_fs Toy.scenario_world !! Toy.infile = Some (text_file Toy.scenario)
  /\ w_nocreate Toy.scenario_world Toy.outfile = false
  /\ (Toy.main Toy.infile Toy.outfile Toy.scenario_world).2 = Ret tt.
Proof.
  assert (Hin : w_fs Toy.scenario_world !! Toy.infile
                = Some (text_file Toy.scenario)) by reflexivity.
  split; [exact Hin|]. split; [reflexivity|].
  exact (proj1 (fp_array_shape pystr Toy.parse Toy.fingerprint Toy.elapsed
                  Toy.infile Toy.outfile Toy.scenario Toy.scenario_world
                  Hin scenario_toolkit_returns
                  (fun m fp => toy_fingerprint_length m 3 1024 fp)
                  eq_refl (fun _ => eq_refl))).
Defined.

(** A disk without faults: the handle is closed on return. *)
Lemma writer_closes_on_return_witness :
  (Toy.save_data (Np.mk_ndarray Np.float32 [0%nat] []) [] [] Toy.outfile
     Toy.scenario_world).2 = Ret tt
  /\ w_open (Toy.save_data (Np.mk_ndarray Np.float32 [0%nat] []) [] []
               Toy.outfile Toy.scenario_world).1
     = w_open Toy.scenario_world.
Proof.
  assert (Hr : (Toy.save_data (Np.mk_ndarray Np.float32 [0%nat] []) [] []
                  Toy.outfile Toy.scenario_world).2 = Ret tt)
    by (vm_compute; reflexivity).
  split; [exact Hr|].
  destruct (writer_closes_on_return Toy.elapsed
              (Np.mk_ndarray Np.float32 [0%nat] []) [] [] Toy.outfile
              Toy.scenario_world) as (_ & Hret & _).
  exact (proj1 (Hret Hr)).
Defined.

(** Two worlds with the scenario as input, different in the rest: the
    same output file. *)
Lemma runs_agree_witness :
  w_fs Toy.scenario_world !! Toy.infile = w_fs Toy.busy_world !! Toy.infile
  /\ (Toy.main Toy.infile Toy.outfile Toy.scenario_world).2 = Ret tt
  /\ (Toy.main Toy.infile Toy.outfile Toy.busy_world).2 = Ret tt
  /\ w_fs (Toy.main Toy.infile Toy.outfile Toy.scenario_world).1
       !! Toy.outfile
     = w_fs (Toy.main Toy.infile Toy.outfile Toy.busy_world).1
       !! Toy.outfile.
Proof.
  assert (Hin : w_fs Toy.scenario_world !! Toy.infile
                = w_fs Toy.busy_world !! Toy.infile)
    by (vm_compute; reflexivity).
  assert (H1 : (Toy.main Toy.infile Toy.outfile Toy.scenario_world).2
               = Ret tt) by (vm_compute; reflexivity).
  assert (H2 : (Toy.main Toy.infile Toy.outfile Toy.busy_world).2 = Ret tt)
    by (vm_compute; reflexivity).
  split; [exact Hin|]. split; [exact H1|]. split; [exact H2|].
  exact (proj1 (runs_agree pystr Toy.parse Toy.fingerprint Toy.elapsed
                  Toy.infile Toy.outfile Toy.scenario_world Toy.busy_world
                  Hin) H1 H2).
Defined.

(** No input file: the run raises and the disk stays empty. *)
Lemma output_untouched_on_failure_witness :
  (Toy.generate_fingerprints Toy.infile Toy.full_disk_world).2
  = Raise FileNotFoundError
  /\ (Toy.main Toy.infile Toy.outfile Toy.full_disk_world).2
     = Raise FileNotFoundError
  /\ w_fs (Toy.main Toy.infile Toy.outfile Toy.full_disk_world).1
     = w_fs Toy.full_disk_world.
Proof.
  assert (Hg : (Toy.generate_fingerprints Toy.infile Toy.full_disk_world).2
               = Raise FileNotFoundError) by (vm_compute; reflexivity).
  split; [exact Hg|].
  destruct (proj1 (output_untouched_on_failure pystr Toy.parse
                     Toy.fingerprint Toy.elapsed Toy.infile Toy.outfile
                     Toy.full_disk_world)
              FileNotFoundError (or_introl Hg)) as (Hr & Hfs & _).
  split; [exact Hr|exact Hfs].
Defined.

(** * Further properties of the script *)

(** ** What the input and output operations leave alone *)

Lemma same_rest_refl (w : World) : same_rest w w.
Proof. done. Qed.

Lemma same_rest_trans (w1 w2 w3 : World) :
  same_rest w1 w2 -> same_rest w2 w3 -> same_rest w1 w3.
Proof.
  intros (?&?&?&?&?) (?&?&?&?&?). repeat split; congruence.
Qed.

Lemma bind_same_rest {A B} (c : IO A) (k : A -> IO B) :
  (forall w, same_rest w (c w).1) ->
  (forall a w, same_rest w (k a w).1) ->
  forall w, same_rest w (bind c k w).1.
Proof.
  intros Hc Hk w. unfold bind. specialize (Hc w).
  destruct (c w) as [w1 [a|e]]; simpl in *; [|done].
  eapply same_rest_trans; [exact Hc|apply Hk].
Qed.

Lemma lift_same_rest {A} (r : outcome A) (w : World) :
  same_rest w (lift r w).1.
Proof. done. Qed.

Lemma open_same_rest (name : pystr) (w : World) :
  same_rest w (open name w).1.
Proof. unfold open. destruct (w_fs w !! name); done. Qed.

Lemma iter_lines_same_rest (ifs : handle) (w : World) :
  same_rest w (iter_lines ifs w).1.
Proof.
  unfold iter_lines. destruct ifs as [name|name]; [|done].
  destruct (w_fs w !! name) as [[s|c]|]; done.
Qed.

Lemma File_same_rest (name : pystr) (w : World) :
  same_rest w (H5py.File name w).1.
Proof. unfold H5py.File. destruct (w_nocreate w name); done. Qed.

Lemma create_dataset_same_rest (h5f : handle) (name : pystr)
    (shape : option (list nat)) (data : H5py.pydata) (w : World) :
  same_rest w (H5py.create_dataset h5f name shape data w).1.
Proof.
  unfold H5py.create_dataset. destruct h5f as [path|path]; [done|].
  destruct (negb (bool_decide (H5Handle path ∈ w_open w))); [done|].
  destruct (H5py.as_array data) as [dshape payload].
  destruct (negb _); [done|].
  destruct (w_fs w !! path) as [[s|c]|]; try done.
  destruct (bool_decide _); [done|].
  destruct (w_writefail w path name); done.
Qed.

Lemma close_same_rest (h5f : handle) (w : World) :
  same_rest w (H5py.close h5f w).1.
Proof. done. Qed.

(** The input and output operations touch no path but their own. *)
Lemma File_other_paths (name p : pystr) (w : World) :
  p <> name -> w_fs (H5py.File name w).1 !! p = w_fs w !! p.
Proof.
  intros Hp. unfold H5py.File. destruct (w_nocreate w name); [done|].
  simpl. by rewrite lookup_insert_ne.
Qed.

Section Further.

Variable Mol : Type.
Variable MolFromSmiles : pystr -> outcome (option Mol).
Variable GetMorganFingerprintAsBitVect :
  Mol -> nat -> nat -> outcome DataStructs.BitVect.
Variable elapsed_text : Q -> Q -> pystr.

Local Abbreviation timing := (@GenFp.timing elapsed_text).
Local Abbreviation timing_line := (GenFp.timing_line elapsed_text).
Local Abbreviation make_np_array := (GenFp.make_np_array elapsed_text).
Local Abbreviation save_data := (GenFp.save_data elapsed_text).
Local Abbreviation loop_body :=
  (GenFp.loop_body Mol MolFromSmiles GetMorganFingerprintAsBitVect).
Local Abbreviation accepted := (GenFp.accepted Mol MolFromSmiles).
Local Abbreviation toolkit_returns :=
  (GenFp.toolkit_returns Mol MolFromSmiles GetMorganFingerprintAsBitVect).
Local Abbreviation fp_of :=
  (GenFp.fp_of Mol MolFromSmiles GetMorganFingerprintAsBitVect).
Local Abbreviation row_fp :=
  (GenFp.row_fp Mol MolFromSmiles GetMorganFingerprintAsBitVect).
Local Abbreviation for_lines :=
  (GenFp.for_lines Mol MolFromSmiles GetMorganFingerprintAsBitVect).
Local Abbreviation read_result :=
  (GenFp.read_result Mol MolFromSmiles GetMorganFingerprintAsBitVect).
Local Abbreviation generate_fingerprints :=
  (GenFp.generate_fingerprints Mol MolFromSmiles GetMorganFingerprintAsBitVect
     elapsed_text).
Local Abbreviation main :=
  (GenFp.main Mol MolFromSmiles GetMorganFingerprintAsBitVect elapsed_text).
Local Abbreviation script :=
  (GenFp.script Mol MolFromSmiles GetMorganFingerprintAsBitVect elapsed_text).

Local Abbreviation timing_run := (timing_run elapsed_text).
Local Abbreviation gen_run :=
  (generate_fingerprints_run Mol MolFromSmiles
     GetMorganFingerprintAsBitVect elapsed_text).
Local Abbreviation np_run := (make_np_array_run elapsed_text).
Local Abbreviation save_run := (save_data_run elapsed_text).
Local Abbreviation main_run :=
  (main_run Mol MolFromSmiles GetMorganFingerprintAsBitVect elapsed_text).
Local Abbreviation loop_body_toks :=
  (loop_body_toks Mol MolFromSmiles GetMorganFingerprintAsBitVect).
Local Abbreviation loop_body_row :=
  (loop_body_row Mol MolFromSmiles GetMorganFingerprintAsBitVect).
Local Abbreviation for_lines_cons :=
  (for_lines_cons Mol MolFromSmiles GetMorganFingerprintAsBitVect).
Local Abbreviation for_lines_rows :=
  (for_lines_rows Mol MolFromSmiles GetMorganFingerprintAsBitVect).

(** ** The clock and the output stream *)

Lemma timing_line_eq (name : pystr) (start end_ : Q) :
  (name ++ [32] ++ Py.lit "Elapsed time: "
   ++ elapsed_text start end_ ++ Py.lit " sec") ++ [10]
  = timing_line name start end_.
Proof. unfold GenFp.timing_line. rewrite <- !app_assoc. done. Qed.

(** A decorated call whose body leaves the clock and the output stream
    alone: when it returns, two readings were taken and one line was
    printed; when it raises, one reading and no line. *)
Lemma timing_console {A} (name : pystr) (f : IO A) (w : World) :
  (forall w0, same_rest w0 (f w0).1) ->
  let r := timing name f w in
  w_clock r.1 = w_clock w /\ w_nocreate r.1 = w_nocreate w
  /\ w_writefail r.1 = w_writefail w
  /\ match r.2 with
     | Ret _ =>
         w_stdout r.1
         = w_stdout w ++ timing_line name (w_clock w (w_ticks w))
                           (w_clock w (S (w_ticks w)))
         /\ w_ticks r.1 = S (S (w_ticks w))
     | Raise _ => w_stdout r.1 = w_stdout w /\ w_ticks r.1 = S (w_ticks w)
     end.
Proof.
  intros Hf r. subst r. rewrite timing_run.
  specialize (Hf (set_ticks S w)).
  destruct (f (set_ticks S w)) as [w1 [a|e]];
    cbn [fst snd w_stdout w_ticks w_clock w_nocreate w_writefail
         set_stdout set_ticks] in *;
    destruct Hf as (Hso & Hti & Hcl & Hnc & Hwf);
    rewrite ?Hso, ?Hti, ?Hcl, ?Hnc, ?Hwf; [|done].
  repeat split. unfold GenFp.timing_line.
  rewrite <- !app_assoc. done.
Qed.

Lemma generate_fingerprints_console (infile : pystr) (w : World) :
  let r := generate_fingerprints infile w in
  w_clock r.1 = w_clock w /\ w_nocreate r.1 = w_nocreate w
  /\ w_writefail r.1 = w_writefail w
  /\ match r.2 with
     | Ret _ =>
         w_stdout r.1
         = w_stdout w ++ timing_line (Py.lit "generate_fingerprints")
                           (w_clock w (w_ticks w))
                           (w_clock w (S (w_ticks w)))
         /\ w_ticks r.1 = S (S (w_ticks w))
     | Raise _ => w_stdout r.1 = w_stdout w /\ w_ticks r.1 = S (w_ticks w)
     end.
Proof.
  unfold GenFp.generate_fingerprints. apply timing_console.
  apply bind_same_rest; [apply open_same_rest|]. intros ifs.
  apply bind_same_rest; [apply iter_lines_same_rest|]. intros lines.
  apply lift_same_rest.
Qed.

Lemma make_np_array_console (lst : list Np.ndarray) (w : World) :
  let r := make_np_array lst w in
  w_clock r.1 = w_clock w /\ w_nocreate r.1 = w_nocreate w
  /\ w_writefail r.1 = w_writefail w
  /\ match r.2 with
     | Ret _ =>
         w_stdout r.1
         = w_stdout w ++ timing_line (Py.lit "make_np_array")
                           (w_clock w (w_ticks w))
                           (w_clock w (S (w_ticks w)))
         /\ w_ticks r.1 = S (S (w_ticks w))
     | Raise _ => w_stdout r.1 = w_stdout w /\ w_ticks r.1 = S (w_ticks w)
     end.
Proof.
  unfold GenFp.make_np_array. apply timing_console.
  intros w0. apply lift_same_rest.
Qed.

Lemma save_data_console (fp_array : Np.ndarray)
    (smiles_list name_list : list pybytes) (out : pystr) (w : World) :
  let r := save_data fp_array smiles_list name_list out w in
  w_clock r.1 = w_clock w /\ w_nocreate r.1 = w_nocreate w
  /\ w_writefail r.1 = w_writefail w
  /\ match r.2 with
     | Ret _ =>
         w_stdout r.1
         = w_stdout w ++ timing_line (Py.lit "save_data")
                           (w_clock w (w_ticks w))
                           (w_clock w (S (w_ticks w)))
         /\ w_ticks r.1 = S (S (w_ticks w))
     | Raise _ => w_stdout r.1 = w_stdout w /\ w_ticks r.1 = S (w_ticks w)
     end.
Proof.
  unfold GenFp.save_data. apply timing_console.
  apply bind_same_rest; [apply File_same_rest|]. intros h5f.
  apply bind_same_rest; [apply create_dataset_same_rest|]. intros _.
  apply bind_same_rest; [apply create_dataset_same_rest|]. intros _.
  apply bind_same_rest; [apply create_dataset_same_rest|]. intros _.
  apply close_same_rest.
Qed.

(** The whole run: the faults of the disk and the clock are as before;
    each stage that returned has printed its line, in the order in which
    the stages end, and [main] prints its own last. *)
Lemma main_console (infile out : pystr) (w : World) :
  let r := main infile out w in
  let t := w_ticks w in
  let c := w_clock w in
  w_clock r.1 = c /\ w_nocreate r.1 = w_nocreate w
  /\ w_writefail r.1 = w_writefail w
  /\ match read_result (w_fs w !! infile) with
     | Raise _ => w_stdout r.1 = w_stdout w /\ w_ticks r.1 = (2 + t)%nat
     | Ret (fp_list, smiles_list, name_list) =>
         match Np.array fp_list Np.float32 with
         | None =>
             w_stdout r.1
             = w_stdout w
               ++ timing_line (Py.lit "generate_fingerprints")
                    (c (1 + t)%nat) (c (2 + t)%nat)
             /\ w_ticks r.1 = (4 + t)%nat
         | Some fp_array =>
             match (write_result (w_nocreate w out) (w_writefail w out)
                      fp_array smiles_list name_list).1.1 with
             | Raise _ =>
                 w_stdout r.1
                 = w_stdout w
                   ++ timing_line (Py.lit "generate_fingerprints")
                        (c (1 + t)%nat) (c (2 + t)%nat)
                   ++ timing_line (Py.lit "make_np_array")
                        (c (3 + t)%nat) (c (4 + t)%nat)
                 /\ w_ticks r.1 = (6 + t)%nat
             | Ret _ =>
                 w_stdout r.1
                 = w_stdout w
                   ++ timing_line (Py.lit "generate_fingerprints")
                        (c (1 + t)%nat) (c (2 + t)%nat)
                   ++ timing_line (Py.lit "make_np_array")
                        (c (3 + t)%nat) (c (4 + t)%nat)
                   ++ timing_line (Py.lit "save_data")
                        (c (5 + t)%nat) (c (6 + t)%nat)
                   ++ timing_line (Py.lit "main") (c t) (c (7 + t)%nat)
                 /\ w_ticks r.1 = (8 + t)%nat
             end
         end
     end.
Proof.
  intros r t c. subst r t c. unfold GenFp.main. rewrite timing_run.
  unfold bind.
  destruct (gen_run infile (set_ticks S w))
    as (Gr & _ & _).
  destruct (generate_fingerprints_console infile (set_ticks S w))
    as (Gcl & Gnc & Gwf & Gcon).
  destruct (generate_fingerprints infile (set_ticks S w)) as [w1 gr].
  cbn [fst snd w_stdout w_ticks w_clock w_nocreate w_writefail w_fs
       set_ticks] in Gr, Gcl, Gnc, Gwf, Gcon.
  rewrite <- Gr. clear Gr.
  destruct gr as [[[fp_list smiles_list] name_list]|e];
    [|cbn [fst snd]; destruct Gcon as (-> & ->); done].
  destruct Gcon as (Gso & Gti).
  destruct (np_run fp_list w1) as (Mr & _ & _).
  destruct (make_np_array_console fp_list w1)
    as (Mcl & Mnc & Mwf & Mcon).
  destruct (make_np_array fp_list w1) as [w2 mr].
  cbn [fst snd] in Mr, Mcl, Mnc, Mwf, Mcon. subst mr.
  destruct (Np.array fp_list Np.float32) as [fp_array|].
  2:{ cbn [fst snd]. destruct Mcon as (-> & ->).
      rewrite Mcl, Mnc, Mwf, Gcl, Gnc, Gwf, Gso, Gti. done. }
  destruct Mcon as (Mso & Mti).
  destruct (save_run fp_array smiles_list name_list out w2)
    as (Sr & _ & _).
  destruct (save_data_console fp_array smiles_list name_list out w2)
    as (Scl & Snc & Swf & Scon).
  destruct (save_data fp_array smiles_list name_list out w2) as [w3 sr].
  cbn [fst snd] in Sr, Scl, Snc, Swf, Scon.
  rewrite Mnc, Mwf, Gnc, Gwf in Sr. rewrite <- Sr. clear Sr.
  destruct sr as [[]|e];
    cbn [fst snd w_stdout w_ticks w_clock w_nocreate w_writefail
         set_stdout set_ticks];
    destruct Scon as (Sso & Sti);
    rewrite ?Scl, ?Snc, ?Swf, ?Sso, ?Sti, ?Mcl, ?Mnc, ?Mwf, ?Mso, ?Mti,
      ?Gcl, ?Gnc, ?Gwf, ?Gso, ?Gti.
  - repeat split. rewrite timing_line_eq, <- !app_assoc. done.
  - rewrite <- !app_assoc. done.
Qed.

(** X1: a run that returns has printed four lines, one per decorated
    function and in the order in which the functions end (the reading
    pass, the materialisation, the writer, then [main] itself, whose
    line spans the whole run), and has read the clock eight times. *)
Theorem returning_run_prints_four_lines (infile out : pystr) (w : World) :
  let r := main infile out w in
  let t := w_ticks w in
  let c := w_clock w in
  r.2 = Ret tt ->
  w_stdout r.1
  = w_stdout w
    ++ timing_line (Py.lit "generate_fingerprints")
         (c (1 + t)%nat) (c (2 + t)%nat)
    ++ timing_line (Py.lit "make_np_array") (c (3 + t)%nat) (c (4 + t)%nat)
    ++ timing_line (Py.lit "save_data") (c (5 + t)%nat) (c (6 + t)%nat)
    ++ timing_line (Py.lit "main") (c t) (c (7 + t)%nat)
  /\ w_ticks r.1 = (8 + t)%nat.
Proof.
  intros r t c Hret.
  pose proof (main_run infile out w) as Hm.
  pose proof (main_console infile out w) as Hc.
  cbv zeta in Hm, Hc. fold r in Hm, Hc. fold t in Hc. fold c in Hc.
  destruct Hc as (_ & _ & _ & Hc).
  destruct (read_result (w_fs w !! infile))
    as [[[fp_list smiles_list] name_list]|e].
  2:{ destruct Hm as (Hr & _). congruence. }
  destruct (Np.array fp_list Np.float32) as [fp_array|].
  2:{ destruct Hm as (Hr & _). congruence. }
  destruct Hm as (Hr & _). rewrite Hret in Hr. rewrite <- Hr in Hc.
  exact Hc.
Qed.

(** X2: a run that raises never prints the line of [main]: it has
    printed the lines of the stages that returned before the failure,
    none when the reading pass raised, at most those of the reading pass
    and of the materialisation; the stage that raised took one reading
    of the clock and printed nothing. *)
Theorem raising_run_prints_finished_stages
    (infile out : pystr) (w : World) (e : exn) :
  let r := main infile out w in
  let t := w_ticks w in
  let c := w_clock w in
  r.2 = Raise e ->
  exists k,
    (k <= 2)%nat
    /\ w_stdout r.1
       = w_stdout w
         ++ concat (take k
              [timing_line (Py.lit "generate_fingerprints")
                 (c (1 + t)%nat) (c (2 + t)%nat);
               timing_line (Py.lit "make_np_array")
                 (c (3 + t)%nat) (c (4 + t)%nat)])
    /\ w_ticks r.1 = (2 + 2 * k + t)%nat
    /\ ((exists e', (generate_fingerprints infile w).2 = Raise e') ->
        k = 0%nat).
Proof.
  intros r t c Hraise.
  pose proof (main_run infile out w) as Hm.
  pose proof (main_console infile out w) as Hc.
  destruct (gen_run infile w) as (Hg & _).
  cbv zeta in Hm, Hc. fold r in Hm, Hc. fold t in Hc. fold c in Hc.
  destruct Hc as (_ & _ & _ & Hc). rewrite Hg.
  destruct (read_result (w_fs w !! infile))
    as [[[fp_list smiles_list] name_list]|e0].
  2:{ exists 0%nat. destruct Hc as (-> & ->). cbn [take concat].
      rewrite app_nil_r. split; [lia|]. split; [done|].
      split; [lia|done]. }
  destruct (Np.array fp_list Np.float32) as [fp_array|].
  2:{ exists 1%nat. destruct Hc as (-> & ->). cbn [take concat].
      rewrite app_nil_r. split; [lia|]. split; [done|].
      split; [lia|]. intros [e' [=]]. }
  destruct Hm as (Hr & _). rewrite Hraise in Hr. rewrite <- Hr in Hc.
  exists 2%nat. destruct Hc as (-> & ->). cbn [take concat].
  rewrite app_nil_r. split; [lia|]. split; [done|].
  split; [lia|]. intros [e' [=]].
Qed.

(** ** Handles and paths *)




(** X6: nothing keeps the output path apart from the input path: a run
    that is given the same path for both and returns has replaced the
    text it read by the container. *)
Theorem same_path_replaces_input (path content : pystr) (w : World) :
  let r := main path path w in
  w_fs w !! path = Some (text_file content) ->
  r.2 = Ret tt ->
  exists c, w_fs r.1 !! path = Some (hdf5_file c)
            /\ c.*1 = [Py.lit "fp_list"; Py.lit "smiles_list";
                       Py.lit "name_list"].
Proof.
  intros r Hin Hret.
  pose proof (main_run path path w) as Hm. cbv zeta in Hm. fold r in Hm.
  destruct (read_result (w_fs w !! path))
    as [[[fp_list smiles_list] name_list]|e0].
  2:{ destruct Hm as (Hr & _). congruence. }
  destruct (Np.array fp_list Np.float32) as [fp_array|].
  2:{ destruct Hm as (Hr & _). congruence. }
  destruct Hm as (Hr & Hfs & _). rewrite Hret in Hr. rewrite Hfs.
  revert Hr. unfold write_result.
  destruct (w_nocreate w path); [done|].
  destruct (w_writefail w path (Py.lit "fp_list")); [done|].
  destruct (w_writefail w path (Py.lit "smiles_list")); [done|].
  destruct (w_writefail w path (Py.lit "name_list")); [done|].
  intros _. cbn [fst snd]. eexists. rewrite lookup_insert_eq.
  split; done.
Qed.


(** ** Lines and tokens *)

Lemma lstrip_blank (s : pystr) :
  Forall (fun c => Py.isspace c = true) s -> Py.lstrip s = [].
Proof.
  induction 1 as [|c s Hc _ IH]; simpl; [done|]. by rewrite Hc.
Qed.

(** X8: a line of white space only, the empty line included, has the
    single empty token and is skipped without a call of the toolkit. *)
Theorem blank_line_skipped (acc : columns) (line : pystr) :
  Forall (fun c => Py.isspace c = true) line ->
  toks_of line = [[]] /\ loop_body acc line = Ret acc.
Proof.
  intros Hblank.
  assert (Ht : toks_of line = [[]]).
  { unfold toks_of, Py.strip, Py.rstrip.
    rewrite (lstrip_blank line Hblank). done. }
  split; [exact Ht|]. rewrite loop_body_toks, Ht. done.
Qed.

Lemma join_last_empty (toks : list pystr) :
  (2 <= length toks)%nat -> last toks = Some [] ->
  last (Py.join [32] toks) = Some 32.
Proof.
  induction toks as [|t rest IH]; [simpl; lia|].
  intros Hlen Hlast. destruct rest as [|t' rest']; [simpl in Hlen; lia|].
  change (Py.join [32] (t :: t' :: rest'))
    with (t ++ [32] ++ Py.join [32] (t' :: rest')).
  rewrite last_cons in Hlast.
  destruct rest' as [|t'' rest''].
  - simpl in Hlast. injection Hlast as ->. simpl.
    rewrite last_snoc. done.
  - assert (Hl : last (t' :: t'' :: rest'') = Some []).
    { destruct (last (t' :: t'' :: rest'')) eqn:E; [done|].
      by apply last_None in E. }
    specialize (IH ltac:(simpl; lia) Hl).
    rewrite app_assoc, last_app, IH. done.
Qed.

(** X9: the structure token of a candidate record is never the empty
    string, so the parser is never called on it, and the last token of
    the line is never empty either: with two tokens exactly the
    identifier is not empty. *)
Theorem first_and_last_token_nonempty
    (line smiles name : pystr) (rest : list pystr) :
  toks_of line = smiles :: name :: rest ->
  smiles <> []
  /\ (forall t, last (name :: rest) = Some t -> t <> [])
  /\ (rest = [] -> name <> []).
Proof.
  intros Ht.
  destruct (PyFacts.strip_spec line)
    as (pre & post & _ & _ & _ & Hhd & Hlast).
  pose proof (PyFacts.split_join (Py.strip line) 32) as Hj.
  fold (toks_of line) in Hj. rewrite Ht in Hj.
  assert (Hfirst : smiles <> []).
  { intros ->. rewrite <- Hj in Hhd. by specialize (Hhd 32 eq_refl). }
  assert (Hl : forall t, last (name :: rest) = Some t -> t <> []).
  { intros t Hlt ->.
    assert (H32 : last (Py.join [32] (smiles :: name :: rest)) = Some 32).
    { apply join_last_empty; [simpl; lia|]. by rewrite last_cons, Hlt. }
    rewrite Hj in H32. by specialize (Hlast 32 H32). }
  split; [exact Hfirst|]. split; [exact Hl|].
  intros ->. by apply Hl.
Qed.

(** X10: the lines that give no row have no part in the result: taking
    them out of the input leaves the three columns as they are. *)
Theorem skipped_lines_irrelevant (lines : list pystr) (acc : columns) :
  Forall toolkit_returns lines ->
  for_lines (filter (fun l => accepted l) lines) acc = for_lines lines acc.
Proof.
  intros Hall. revert acc.
  induction Hall as [|line lines Hline _ IH]; intros [[fps smis] names];
    [done|].
  rewrite (for_lines_cons line lines), (loop_body_row _ _ _ _ Hline).
  destruct (accepted line) eqn:Hacc.
  - rewrite filter_cons_True by (by apply Is_true_true).
    rewrite for_lines_cons, (loop_body_row _ _ _ _ Hline), Hacc.
    cbn [obind]. apply IH.
  - rewrite filter_cons_False by (by apply Is_true_false).
    cbn [obind]. apply IH.
Qed.

(** ** Dense arrays *)

Lemma loop_body_dense (fps fps' : list Np.ndarray)
    (smis smis' names names' : list pybytes) (line : pystr) :
  loop_body (fps, smis, names) line = Ret (fps', smis', names') ->
  Forall Np.dense fps -> Forall Np.dense fps'.
Proof.
  rewrite loop_body_toks. unfold GenFp.take_record.
  destruct (toks_of line) as [|smiles [|name rest]].
  { intros [= <- <- <-]. done. }
  { intros [= <- <- <-]. done. }
  destruct (MolFromSmiles smiles) as [[m|]|e].
  - destruct (GetMorganFingerprintAsBitVect m 3 1024) as [fp|e]; [|done].
    intros [= <- <- <-] Hd. apply Forall_app. split; [done|].
    constructor; [|constructor]. unfold Np.dense. simpl.
    rewrite length_map. lia.
  - intros [= <- <- <-]. done.
  - done.
Qed.

Lemma for_lines_dense (lines : list pystr) (fps fps' : list Np.ndarray)
    (smis smis' names names' : list pybytes) :
  for_lines lines (fps, smis, names) = Ret (fps', smis', names') ->
  Forall Np.dense fps -> Forall Np.dense fps'.
Proof.
  revert fps smis names.
  induction lines as [|line lines IH]; intros fps smis names.
  - intros [= <- <- <-]. done.
  - rewrite for_lines_cons.
    destruct (loop_body (fps, smis, names) line)
      as [[[fps1 smis1] names1]|e] eqn:Hb; [|done].
    cbn [obind]. intros Hrest Hd.
    apply (IH _ _ _ Hrest). by apply (loop_body_dense _ _ _ _ _ _ _ Hb).
Qed.

Lemma concat_same_length (lst : list Np.ndarray) (n : nat) :
  Forall (fun a => length (Np.nd_data a) = n) lst ->
  length (concat (map Np.nd_data lst)) = (length lst * n)%nat.
Proof.
  induction 1 as [|a lst Ha _ IH]; [done|].
  simpl. rewrite length_app, IH, Ha. done.
Qed.

(** Stacking dense rows gives a dense array. *)
Lemma array_dense (lst : list Np.ndarray) (dt : Np.dtype)
    (a : Np.ndarray) :
  Forall Np.dense lst -> Np.array lst dt = Some a -> Np.dense a.
Proof.
  intros Hd. unfold Np.array.
  destruct lst as [|a0 rest]; [by intros [= <-]|].
  destruct (forallb _ rest) eqn:Hsame; [|done]. intros Ha.
  assert (Hlen : length (concat (map Np.nd_data (a0 :: rest)))
                 = (length (a0 :: rest) * Np.product (Np.nd_shape a0))%nat).
  { apply concat_same_length.
    apply Forall_cons in Hd as [Ha0 Hrest]. constructor; [exact Ha0|].
    apply Forall_forall. intros b Hb.
    rewrite Forall_forall in Hrest. rewrite (Hrest b Hb).
    rewrite forallb_forall in Hsame.
    specialize (Hsame b ltac:(by apply list_elem_of_In)).
    apply bool_decide_eq_true_1 in Hsame. by rewrite Hsame. }
  injection Ha as <-. unfold Np.dense.
  cbn [Np.nd_data Np.nd_shape]. exact Hlen.
Qed.

(** X14: the materialisation raises a ValueError exactly when two of
    the arrays it is given differ in shape; otherwise it returns an
    array of 32-bit floats, whatever the element type of the rows, with
    one entry per array along its first axis and the elements of the
    arrays in order; either way it leaves the file system and the open
    handles alone. *)
Theorem make_np_array_outcome (lst : list Np.ndarray) (w : World) :
  let r := make_np_array lst w in
  ((exists a b, a ∈ lst /\ b ∈ lst /\ Np.nd_shape a <> Np.nd_shape b) ->
   r.2 = Raise ValueError)
  /\ ((forall a b, a ∈ lst -> b ∈ lst -> Np.nd_shape a = Np.nd_shape b) ->
      exists arr,
        r.2 = Ret arr /\ Np.nd_dtype arr = Np.float32
        /\ head (Np.nd_shape arr) = Some (length lst)
        /\ Np.nd_data arr = concat (map Np.nd_data lst))
  /\ w_fs r.1 = w_fs w /\ w_open r.1 = w_open w.
Proof.
  intros r. destruct (np_run lst w) as (Hr & (Hfs & _) & Ho).
  fold r in Hr, Hfs, Ho. rewrite Hr. clear Hr.
  split; [|split; [|by split]].
  - intros (a & b & Ha & Hb & Hne). unfold Np.array.
    destruct lst as [|a0 rest]; [by apply elem_of_nil in Ha|].
    destruct (forallb _ rest) eqn:Hsame; [|done]. exfalso.
    rewrite forallb_forall in Hsame.
    assert (Hall : forall x, x ∈ a0 :: rest ->
                             Np.nd_shape x = Np.nd_shape a0).
    { intros x [->|Hx]%elem_of_cons; [done|].
      specialize (Hsame x ltac:(by apply list_elem_of_In)).
      by apply bool_decide_eq_true_1 in Hsame. }
    apply Hne. by rewrite (Hall a Ha), (Hall b Hb).
  - intros Hall. unfold Np.array.
    destruct lst as [|a0 rest]; [by eexists|].
    assert (Hsame : forallb
              (fun b => bool_decide (Np.nd_shape b = Np.nd_shape a0))
              rest = true).
    { apply forallb_forall. intros x Hx%list_elem_of_In.
      apply bool_decide_eq_true_2. apply Hall; [by right|by left]. }
    rewrite Hsame. by eexists.
Qed.

(** X13: in the file a returning run leaves, every dataset holds as many
    elements as its shape says, whatever the toolkit returned: the loop
    adds only dense rows, the materialisation keeps them dense, and the
    writer gives each string column the length of its list. *)
Theorem written_datasets_dense (infile out : pystr) (w : World) :
  let r := main infile out w in
  r.2 = Ret tt ->
  exists c, w_fs r.1 !! out = Some (hdf5_file c)
            /\ length c = 3%nat
            /\ Forall (fun nd => dataset_dense nd.2) c.
Proof.
  intros r Hret.
  pose proof (main_run infile out w) as Hm. cbv zeta in Hm. fold r in Hm.
  destruct (read_result (w_fs w !! infile))
    as [[[fp_list smiles_list] name_list]|e0] eqn:Hread.
  2:{ destruct Hm as (Hr & _). congruence. }
  assert (Hd : Forall Np.dense fp_list).
  { unfold GenFp.read_result in Hread.
    destruct (w_fs w !! infile) as [[s|c]|]; try done.
    by apply (for_lines_dense _ _ _ _ _ _ _ Hread). }
  destruct (Np.array fp_list Np.float32) as [fp_array|] eqn:Harr.
  2:{ destruct Hm as (Hr & _). congruence. }
  apply (array_dense _ _ _ Hd) in Harr.
  destruct Hm as (Hr & Hfs & _). rewrite Hret in Hr. rewrite Hfs.
  revert Hr. unfold write_result.
  destruct (w_nocreate w out); [done|].
  destruct (w_writefail w out (Py.lit "fp_list")); [done|].
  destruct (w_writefail w out (Py.lit "smiles_list")); [done|].
  destruct (w_writefail w out (Py.lit "name_list")); [done|].
  intros _. cbn [fst snd]. eexists. rewrite lookup_insert_eq.
  split; [done|]. split; [done|].
  repeat constructor; unfold dataset_dense; simpl; [exact Harr|lia|lia].
Qed.

End Further.

(** ** The lines of a text *)

Lemma lines_from_shape (cur s : pystr) :
  10 ∉ cur ->
  exists bodies final,
    Py.lines_from cur s = map (fun b => b ++ [10]) bodies ++ final
    /\ Forall (fun b => 10 ∉ b) bodies
    /\ (final = [] \/ exists b, final = [b] /\ b <> [] /\ 10 ∉ b)
    /\ concat (Py.lines_from cur s) = rev cur ++ s.
Proof.
  revert cur. induction s as [|c s IH]; intros cur Hcur.
  - destruct cur as [|c0 cur0].
    + exists [], []. split; [done|]. split; [constructor|].
      split; [by left|done].
    + set (cur := c0 :: cur0) in *.
      assert (Hne : rev cur <> []).
      { subst cur. simpl. by destruct (rev cur0). }
      assert (Hno : 10 ∉ rev cur).
      { intros Hin%list_elem_of_In%in_rev. by apply Hcur, list_elem_of_In. }
      exists [], [rev cur]. split; [done|]. split; [constructor|].
      split; [right; by eexists|]. simpl. by rewrite !app_nil_r.
  - simpl. destruct (N.eqb_spec c 10) as [->|Hc].
    + destruct (IH [] (not_elem_of_nil _))
        as (bodies & final & Hl & Hb & Hf & Hcat).
      exists (rev cur :: bodies), final. rewrite Hl. simpl.
      split; [done|]. split.
      { constructor; [|done].
        intros Hin%list_elem_of_In%in_rev. by apply Hcur, list_elem_of_In. }
      split; [done|].
      rewrite <- Hl, Hcat. simpl. by rewrite <- app_assoc.
    + destruct (IH (c :: cur)) as (bodies & final & Hl & Hb & Hf & Hcat).
      { intros [?|?]%elem_of_cons; [congruence|done]. }
      exists bodies, final. split; [done|]. split; [done|].
      split; [done|]. rewrite Hcat. simpl. by rewrite <- app_assoc.
Qed.

(** X12: the lines read from a text are the text cut after each line
    feed: put end to end they give the text back, each holds no line
    feed but the one that ends it, and only the last can lack that one,
    and then it is not empty. *)
Theorem readlines_partition (s : pystr) :
  concat (Py.readlines s) = s
  /\ exists bodies final,
       Py.readlines s = map (fun b => b ++ [10]) bodies ++ final
       /\ Forall (fun b => 10 ∉ b) bodies
       /\ (final = [] \/ exists b, final = [b] /\ b <> [] /\ 10 ∉ b).
Proof.
  destruct (lines_from_shape [] s (not_elem_of_nil _))
    as (bodies & final & Hl & Hb & Hf & Hcat).
  split; [exact Hcat|]. by exists bodies, final.
Qed.

(** ** The further properties on concrete files *)


(** The scenario: four lines printed, eight readings of the clock. *)
Lemma returning_run_prints_four_lines_witness :
  (Toy.main Toy.infile Toy.outfile Toy.scenario_world).2 = Ret tt
  /\ w_ticks (Toy.main Toy.infile Toy.outfile Toy.scenario_world).1
     = 8%nat.
Proof.
  assert (Hr : (Toy.main Toy.infile Toy.outfile Toy.scenario_world).2
               = Ret tt) by (vm_compute; reflexivity).
  split; [exact Hr|].
  exact (proj2 (returning_run_prints_four_lines pystr Toy.parse
                  Toy.fingerprint Toy.elapsed Toy.infile Toy.outfile
                  Toy.scenario_world Hr)).
Defined.

(** No input file: the run raises and has printed nothing. *)
Lemma raising_run_prints_finished_stages_witness :
  (Toy.main Toy.infile Toy.outfile Toy.full_disk_world).2
  = Raise FileNotFoundError
  /\ exists k,
       (k <= 2)%nat
       /\ w_ticks (Toy.main Toy.infile Toy.outfile Toy.full_disk_world).1
          = (2 + 2 * k + 0)%nat.
Proof.
  assert (Hr : (Toy.main Toy.infile Toy.outfile Toy.full_disk_world).2
               = Raise FileNotFoundError) by (vm_compute; reflexivity).
  split; [exact Hr|].
  destruct (raising_run_prints_finished_stages pystr Toy.parse
              Toy.fingerprint Toy.elapsed Toy.infile Toy.outfile
              Toy.full_disk_world FileNotFoundError Hr)
    as (k & Hk & _ & Ht & _).
  exists k. split; [exact Hk|exact Ht].
Defined.



(** The scenario written onto itself: the text is replaced. *)
Lemma same_path_replaces_input_witness :
  w_fs Toy.scenario_world !! Toy.infile = Some (text_file Toy.scenario)
  /\ (Toy.main Toy.infile Toy.infile Toy.scenario_world).2 = Ret tt
  /\ exists c,
       w_fs (Toy.main Toy.infile Toy.infile Toy.scenario_world).1
         !! Toy.infile = Some (hdf5_file c)
       /\ c.*1 = [Py.lit "fp_list"; Py.lit "smiles_list";
                  Py.lit "name_list"].
Proof.
  assert (Hin : w_fs Toy.scenario_world !! Toy.infile
                = Some (text_file Toy.scenario)) by reflexivity.
  assert (Hr : (Toy.main Toy.infile Toy.infile Toy.scenario_world).2
               = Ret tt) by (vm_compute; reflexivity).
  split; [exact Hin|]. split; [exact Hr|].
  exact (same_path_replaces_input pystr Toy.parse Toy.fingerprint
           Toy.elapsed Toy.infile Toy.scenario Toy.scenario_world Hin Hr).
Defined.


(** A line of a space, a tab and a line feed. *)
Lemma blank_line_skipped_witness :
  Forall (fun c => Py.isspace c = true) [32; 9; 10]
  /\ Toy.loop_body ([], [], []) [32; 9; 10] = Ret ([], [], []).
Proof.
  assert (Hb : Forall (fun c => Py.isspace c = true) [32; 9; 10])
    by (repeat constructor).
  split; [exact Hb|].
  exact (proj2 (blank_line_skipped pystr Toy.parse Toy.fingerprint
                  ([], [], []) [32; 9; 10] Hb)).
Defined.

(** The line of CCO and a name: neither token is empty. *)
Lemma first_and_last_token_nonempty_witness :
  toks_of Toy.accent_line = [Py.lit "CCO"; Py.lit "caf" ++ [233]]
  /\ Py.lit "CCO" <> [].
Proof.
  assert (Ht : toks_of Toy.accent_line
               = [Py.lit "CCO"; Py.lit "caf" ++ [233]]) by reflexivity.
  split; [exact Ht|].
  exact (proj1 (first_and_last_token_nonempty Toy.accent_line
                  (Py.lit "CCO") (Py.lit "caf" ++ [233]) [] Ht)).
Defined.

(** The scenario without its refused line gives the same columns. *)
Lemma skipped_lines_irrelevant_witness :
  Forall Toy.toolkit_returns (tail (Py.readlines Toy.scenario))
  /\ Toy.for_lines
       (filter (fun l => GenFp.accepted pystr Toy.parse l)
          (tail (Py.readlines Toy.scenario))) ([], [], [])
     = Toy.for_lines (tail (Py.readlines Toy.scenario)) ([], [], []).
Proof.
  split; [exact scenario_toolkit_returns|].
  exact (skipped_lines_irrelevant pystr Toy.parse Toy.fingerprint
           (tail (Py.readlines Toy.scenario)) ([], [], [])
           scenario_toolkit_returns).
Defined.

(** The scenario: three dense datasets. *)
Lemma written_datasets_dense_witness :
  (Toy.main Toy.infile Toy.outfile Toy.scenario_world).2 = Ret tt
  /\ exists c,
       w_fs (Toy.main Toy.infile Toy.outfile Toy.scenario_world).1
         !! Toy.outfile = Some (hdf5_file c)
       /\ length c = 3%nat
       /\ Forall (fun nd => dataset_dense nd.2) c.
Proof.
  assert (Hr : (Toy.main Toy.infile Toy.outfile Toy.scenario_world).2
               = Ret tt) by (vm_compute; reflexivity).
  split; [exact Hr|].
  exact (written_datasets_dense pystr Toy.parse Toy.fingerprint
           Toy.elapsed Toy.infile Toy.outfile Toy.scenario_world Hr).
Defined.

(** Two rows of different lengths: the materialisation raises. *)
Lemma make_np_array_outcome_witness :
  (exists a b,
     a ∈ [Np.zeros [1%nat]; Np.zeros [2%nat]]
     /\ b ∈ [Np.zeros [1%nat]; Np.zeros [2%nat]]
     /\ Np.nd_shape a <> Np.nd_shape b)
  /\ (GenFp.make_np_array Toy.elapsed
       [Np.zeros [1%nat]; Np.zeros [2%nat]] Toy.scenario_world).2
     = Raise ValueError.
Proof.
  assert (Hne : exists a b,
            a ∈ [Np.zeros [1%nat]; Np.zeros [2%nat]]
            /\ b ∈ [Np.zeros [1%nat]; Np.zeros [2%nat]]
            /\ Np.nd_shape a <> Np.nd_shape b).
  { exists (Np.zeros [1%nat]), (Np.zeros [2%nat]).
    split; [by left|]. split; [right; by left|]. simpl. discriminate. }
  split; [exact Hne|].
  exact (proj1 (make_np_array_outcome Toy.elapsed
                  [Np.zeros [1%nat]; Np.zeros [2%nat]]
                  Toy.scenario_world) Hne).
Defined.
